(** * Video conversion and transcription: naming protocol and request handlers

    A shallow embedding of the two programs of the repository:

    - [Cloud-Run-Function/main.py]: the storage-event handler
      [process_video_transcription] that starts a speech-transcription job;
    - [Flask-VM-App/app.py]: the web application, with [convert_video]
      (upload, transcode, store, clean up) and [download_options] (the
      availability check).

    Python strings are modelled by [string] (sequences of 8-bit characters,
    [str.lower] folding the letters A-Z), buckets by finite maps from object
    names to blobs, the scratch directory by a finite map from paths to file
    contents.  Everything the handlers cannot decide themselves (the minted
    job identifier, whether a store call or the transcoder fails) is an
    explicit input of the model. *)

From Stdlib Require Import ZArith Ascii String Bool Lia List.
From stdpp Require Import gmap strings.

Local Open Scope Z_scope.

(** ** Python string and path primitives *)

Module Py.

(** [len(s)] *)
Definition len (s : string) : Z := Z.of_nat (String.length s).

(** [s[:n]] for [0 <= n] *)
Fixpoint slice_to (n : nat) (s : string) : string :=
  match n, s with
  | O, _ => ""
  | S _, EmptyString => ""
  | S n', String c s' => String c (slice_to n' s')
  end.

(** [s[n:]] for [0 <= n] *)
Fixpoint slice_from (n : nat) (s : string) : string :=
  match n, s with
  | O, _ => s
  | S _, EmptyString => ""
  | S n', String _ s' => slice_from n' s'
  end.

(** [s[i:i+1]]: the empty string when [i] is out of range *)
Definition slice1 (i : nat) (s : string) : string :=
  slice_to 1 (slice_from i s).

(** [s.rfind(c)] for a one-character [c]: the highest index holding [c],
    or [-1].  [go] scans left to right, [i] being the index of the head
    and [last] the answer for what was read so far. *)
Fixpoint rfind_go (c : ascii) (s : string) (i last : Z) : Z :=
  match s with
  | EmptyString => last
  | String x s' => rfind_go c s' (i + 1) (if Ascii.eqb x c then i else last)
  end.

Definition rfind (c : ascii) (s : string) : Z := rfind_go c s 0 (-1).

(** [str.lower] on 8-bit characters: A-Z are shifted, all others kept. *)
Definition lower_ascii (c : ascii) : ascii :=
  let n := N_of_ascii c in
  if ((65 <=? n) && (n <=? 90))%N then ascii_of_N (n + 32) else c.

Fixpoint lower (s : string) : string :=
  match s with
  | EmptyString => EmptyString
  | String c s' => String (lower_ascii c) (lower s')
  end.

(** [s.startswith(p)] *)
Fixpoint startswith (s p : string) : bool :=
  match p, s with
  | EmptyString, _ => true
  | String _ _, EmptyString => false
  | String a p', String b s' => Ascii.eqb a b && startswith s' p'
  end.

(** [s.endswith(x)]: [x] is no longer than [s] and equals its tail. *)
Definition endswith (s x : string) : bool :=
  (String.length x <=? String.length s)%nat
  && String.eqb (slice_from (String.length s - String.length x) s) x.

(** [s.endswith(t)] for a tuple [t] *)
Definition endswith_any (s : string) (t : list string) : bool :=
  existsb (endswith s) t.

(** The loop of [genericpath._splitext] that skips leading dots:
    [[
      while filenameIndex < dotIndex:
          if p[filenameIndex:filenameIndex+1] != extsep: return p[:dotIndex], p[dotIndex:]
          filenameIndex += 1
    ]]
    [steps] is [dotIndex - filenameIndex]; the result tells whether the
    loop returned from inside. *)
Fixpoint splitext_loop (p : string) (filenameIndex steps : nat) : bool :=
  match steps with
  | O => false
  | S steps' =>
      if negb (String.eqb (slice1 filenameIndex p) ".")
      then true
      else splitext_loop p (S filenameIndex) steps'
  end.

(** [os.path.splitext] of [posixpath] ([sep = '/'], no [altsep],
    [extsep = '.']). *)
Definition splitext (p : string) : string * string :=
  let sepIndex := rfind "/" p in
  let dotIndex := rfind "." p in
  if (dotIndex >? sepIndex)
     && splitext_loop p (Z.to_nat (sepIndex + 1))
                      (Z.to_nat (dotIndex - (sepIndex + 1)))
  then (slice_to (Z.to_nat dotIndex) p, slice_from (Z.to_nat dotIndex) p)
  else (p, "").

(** [os.path.join(a, b)] of [posixpath] for two components *)
Definition path_join (a b : string) : string :=
  if startswith b "/" then b
  else if String.eqb a "" || endswith a "/" then a +:+ b
  else a +:+ "/" +:+ b.

(** [c in s] for a one-character [c] *)
Fixpoint occurs (c : ascii) (s : string) : bool :=
  match s with
  | EmptyString => false
  | String a s' => Ascii.eqb a c || occurs c s'
  end.

(** A path has a proper file name when its last component holds a
    character other than a dot. *)
Definition named (root : string) : Prop :=
  ∃ a c b, root = a +:+ String c b
           ∧ c ≠ "."%char ∧ c ≠ "/"%char ∧ occurs "/" b = false.

End Py.

(** ** The storage-event handler ([Cloud-Run-Function/main.py]) *)

Module Trigger.

Definition OUTPUT_FOLDER : string := "transcriptions/".

Definition supported_extensions : list string :=
  [".mp4"; ".mov"; ".avi"; ".mpg"; ".mpeg"; ".mkv"; ".webm"].

(** [cloud_event.data]: the two keys the handler reads with [data.get];
    [None] is an absent key. *)
Record cloud_event := {
  bucket : option string;
  name : option string
}.

(** The [request] dictionary handed to [annotate_video], with the
    [SpeechTranscriptionConfig] of its [video_context] inlined. *)
Record annotate_request := {
  features : list string;
  input_uri : string;
  output_uri : string;
  language_code : string;
  enable_automatic_punctuation : bool;
  enable_speaker_diarization : bool
}.

(** The transcription service as the handler sees it: constructing the
    client succeeds or raises; [annotate_video] returns an operation (its
    [metadata.name]) or raises an [Exception]. *)
Inductive raised (A : Type) :=
| Ok (a : A)
| Raise (e : string).
Arguments Ok {A} a.
Arguments Raise {A} e.

Record service := {
  VideoIntelligenceServiceClient : raised unit;
  annotate_video : annotate_request -> raised string
}.

(** What an invocation does to the outside, in order. *)
Inductive effect :=
| Print (msg : string)
| AnnotateVideo (r : annotate_request).

(** How an invocation ends: it returns, or an exception leaves it. *)
Inductive outcome :=
| Returned
| Raised (e : string).

(** Python truthiness of [data.get(key)] *)
Definition truthy (v : option string) : bool :=
  match v with
  | None | Some EmptyString => false
  | Some _ => true
  end.

Definition gcs_input_uri (bucket_name file_name : string) : string :=
  "gs://" +:+ bucket_name +:+ "/" +:+ file_name.

Definition gcs_output_uri (bucket_name file_name : string) : string :=
  let base_name := fst (Py.splitext file_name) in
  "gs://" +:+ bucket_name +:+ "/" +:+ OUTPUT_FOLDER +:+ base_name +:+ ".json".

Definition process_video_transcription (svc : service) (ev : cloud_event)
  : outcome * list effect :=
  match bucket ev, name ev with
  | Some bucket_name, Some file_name =>
    if negb (truthy (bucket ev)) || negb (truthy (name ev)) then
      (Returned, [Print "Error: Bucket name or file name missing in event data."])
    else if Py.startswith file_name OUTPUT_FOLDER then
      (Returned,
       [Print ("File '" +:+ file_name +:+ "' is in the output folder. Skipping.")])
    else if negb (Py.endswith_any (Py.lower file_name) supported_extensions) then
      (Returned,
       [Print ("File '" +:+ file_name +:+ "' is not a supported video type. Skipping.")])
    else
      let log0 := [Print ("Processing file: gs://" +:+ bucket_name +:+ "/" +:+ file_name)] in
      let input := gcs_input_uri bucket_name file_name in
      let output := gcs_output_uri bucket_name file_name in
      match VideoIntelligenceServiceClient svc with
      | Raise e => (Raised e, log0)
      | Ok _ =>
        let request := {|
          features := ["SPEECH_TRANSCRIPTION"];
          input_uri := input;
          output_uri := output;
          language_code := "en-US";
          enable_automatic_punctuation := true;
          enable_speaker_diarization := true |} in
        let log1 := log0 ++
          [Print ("Starting transcription job for " +:+ input);
           Print ("Output will be saved to " +:+ output);
           AnnotateVideo request] in
        match annotate_video svc request with
        | Ok operation_name =>
          (Returned,
           log1 ++ [Print ("Transcription operation started: " +:+ operation_name)])
        | Raise e =>
          (Returned,
           log1 ++ [Print ("Error starting transcription for " +:+ input +:+ ": " +:+ e)])
        end
      end
  | _, _ =>
    (Returned, [Print "Error: Bucket name or file name missing in event data."])
  end.

(** The jobs an invocation submitted. *)
Fixpoint submitted (l : list effect) : list annotate_request :=
  match l with
  | [] => []
  | AnnotateVideo r :: l' => r :: submitted l'
  | Print _ :: l' => submitted l'
  end.

Definition jobs (svc : service) (ev : cloud_event) : list annotate_request :=
  submitted (snd (process_video_transcription svc ev)).

(** The object name inside the bucket that [gcs_output_uri] addresses. *)
Definition output_object_name (file_name : string) : string :=
  OUTPUT_FOLDER +:+ fst (Py.splitext file_name) +:+ ".json".

(** A service on which every call succeeds. *)
Definition healthy : service := {|
  VideoIntelligenceServiceClient := Ok tt;
  annotate_video := fun _ => Ok "operations/1" |}.

(** A service whose client cannot be constructed. *)
Definition no_credentials : service := {|
  VideoIntelligenceServiceClient := Raise "DefaultCredentialsError";
  annotate_video := fun _ => Ok "operations/1" |}.

(** A service that refuses every submission. *)
Definition quota_exceeded : service := {|
  VideoIntelligenceServiceClient := Ok tt;
  annotate_video := fun _ => Raise "429 Quota exceeded" |}.

End Trigger.

(** ** The web application ([Flask-VM-App/app.py]) *)

Module App.

Definition INPUT_BUCKET_NAME : string := "video-image-input-bucket".
Definition OUTPUT_BUCKET_NAME : string := "video-image-output-bucket".
Definition TEMP_DOWNLOAD_DIR : string := "/tmp/videoconverter_downloads".
Definition TEMP_PROCESSING_DIR : string := "/tmp/videoconverter_processing".

(** *** Names derived for one conversion request *)

Definition gcs_input_filename (job_id original_filename : string) : string :=
  job_id +:+ "_" +:+ original_filename.

Definition gcs_output_filename (job_id base_name target_format : string) : string :=
  job_id +:+ "_" +:+ base_name +:+ "." +:+ target_format.

Definition local_input_path (job_id original_filename : string) : string :=
  Py.path_join TEMP_PROCESSING_DIR
    ("input_" +:+ gcs_input_filename job_id original_filename).

Definition local_output_path (job_id base_name target_format : string) : string :=
  Py.path_join TEMP_PROCESSING_DIR
    ("output_" +:+ gcs_output_filename job_id base_name target_format).

Definition input_blob_name (job_id original_filename : string) : string :=
  "uploads/" +:+ gcs_input_filename job_id original_filename.

Definition output_blob_name (job_id base_name target_format : string) : string :=
  "converted/" +:+ gcs_output_filename job_id base_name target_format.

(** The four names of a request, as [convert_video] derives them from the
    job identifier, the uploaded file's name and the target format. *)
Definition derived_names (job_id original_filename target_format : string)
  : list string :=
  let base_name := fst (Py.splitext original_filename) in
  [ input_blob_name job_id original_filename;
    output_blob_name job_id base_name target_format;
    local_input_path job_id original_filename;
    local_output_path job_id base_name target_format ].

(** *** Names derived by [download_options] *)

Definition video_blob_name (identifier : string) : string :=
  "converted/" +:+ identifier.

Definition transcription_filename (identifier : string) : string :=
  fst (Py.splitext identifier) +:+ ".json".

Definition transcription_blob_name (identifier : string) : string :=
  "transcriptions/converted/" +:+ transcription_filename identifier.

(** *** The world of the application *)

Record blob := {
  blob_data : string;
  blob_content_type : option string   (* the [content_type] given at upload *)
}.

(** A call that leaves the process.  Calls are recorded when they are
    made, whether or not they succeed. *)
Inductive io_call :=
| UploadFromFile (bucket_name blob_name : string) (content_type : option string)
| DownloadToFilename (bucket_name blob_name path : string)
| FfmpegRun (input output : string)
| UploadFromFilename (bucket_name blob_name path : string)
                     (content_type : option string)
| BlobExists (bucket_name blob_name : string)
| OsRemove (path : string).

Record world := {
  input_bucket : gmap string blob;
  output_bucket : gmap string blob;
  local_files : gmap string string;
  calls : list io_call
}.

(** *** What the environment decides *)

Inductive download_result :=
| DownloadOk
| DownloadNotFound (partial : option string)
| DownloadFails (e : string) (partial : option string).

(** [ffmpeg ... .run()]: exit status 0 with the output written, a non-zero
    exit ([ffmpeg.Error] carrying [stderr]), or another exception.  On a
    failure [partial] is what the transcoder left at the output path, if
    anything. *)
Inductive ffmpeg_result :=
| FfmpegOk (output : string)
| FfmpegError (stderr : option string) (partial : option string)
| FfmpegOther (e : string) (partial : option string).

Record env := {
  storage_client : bool;                  (* [storage_client] is not [None] *)
  uuid4 : string;                         (* [str(uuid.uuid4())] *)
  input_upload : option string;           (* [Some e]: the call raises [e] *)
  input_download : download_result;
  ffmpeg_run : ffmpeg_result;
  output_upload : option string;
  os_remove_fails : string -> bool;       (* [os.remove] raises [OSError] *)
  blob_exists_fails : option string
}.

(** [request.files.get('video')] and [request.form.get('format')] *)
Record file_storage := {
  filename : string;
  content_type : string;
  stream : string
}.

Record request := {
  video : option file_storage;
  format : option string
}.

Record options_page := {
  video_filename : string;
  video_available : bool;
  video_download_url : option (string * string);
  page_transcription_filename : string;
  transcription_available : bool;
  transcription_download_url : option (string * string)
}.

Inductive response :=
| Abort (code : Z) (description : string)
| Redirect (endpoint identifier : string)
| Render (template : string) (page : options_page).

(** *** State passing *)

Definition M (A : Type) : Type := world -> A * world.

Definition ret {A} (a : A) : M A := fun w => (a, w).

Definition bind {A B} (m : M A) (k : A -> M B) : M B :=
  fun w => let (a, w') := m w in k a w'.

Notation "x <- m ;; k" := (bind m (fun x => k))
  (at level 90, m at next level, right associativity).
Notation "m ;;; k" := (bind m (fun _ => k))
  (at level 90, right associativity).

Definition record (c : io_call) : M unit :=
  fun w => (tt, {| input_bucket := input_bucket w;
                   output_bucket := output_bucket w;
                   local_files := local_files w;
                   calls := calls w ++ [c] |}).

Definition put_input (k : string) (b : blob) : M unit :=
  fun w => (tt, {| input_bucket := <[k := b]> (input_bucket w);
                   output_bucket := output_bucket w;
                   local_files := local_files w;
                   calls := calls w |}).

Definition put_output (k : string) (b : blob) : M unit :=
  fun w => (tt, {| input_bucket := input_bucket w;
                   output_bucket := <[k := b]> (output_bucket w);
                   local_files := local_files w;
                   calls := calls w |}).

Definition write_file (path data : string) : M unit :=
  fun w => (tt, {| input_bucket := input_bucket w;
                   output_bucket := output_bucket w;
                   local_files := <[path := data]> (local_files w);
                   calls := calls w |}).

Definition unlink (path : string) : M unit :=
  fun w => (tt, {| input_bucket := input_bucket w;
                   output_bucket := output_bucket w;
                   local_files := delete path (local_files w);
                   calls := calls w |}).

Definition write_partial (path : string) (partial : option string) : M unit :=
  match partial with
  | Some data => write_file path data
  | None => ret tt
  end.

Definition read_file (path : string) : M (option string) :=
  fun w => (local_files w !! path, w).

Definition get_input (k : string) : M (option blob) :=
  fun w => (input_bucket w !! k, w).

Definition get_output (k : string) : M (option blob) :=
  fun w => (output_bucket w !! k, w).

(** [os.path.exists(path)] *)
Definition os_path_exists (path : string) : M bool :=
  fun w => (bool_decide (is_Some (local_files w !! path)), w).

(** [os.remove(path)]: [true] when it returned, [false] when it raised
    [OSError]. *)
Definition os_remove (e : env) (path : string) : M bool :=
  record (OsRemove path) ;;;
  if os_remove_fails e path then ret false
  else unlink path ;;; ret true.

(** The clean-up idiom of the handler:
    [[
      if os.path.exists(path):
          try: os.remove(path)
          except OSError: logging.warning(...)
    ]]
    The result is the [removed_...] flag of the [finally] block. *)
Definition remove_if_exists (e : env) (path : string) : M bool :=
  present <- os_path_exists path ;;
  if present then os_remove e path else ret false.

(** *** [convert_video] *)

(** [input_blob.upload_from_file(video_file, content_type=...)] *)
Definition upload_from_file (e : env) (blob_name : string) (f : file_storage)
  : M (option string) :=
  record (UploadFromFile INPUT_BUCKET_NAME blob_name (Some (content_type f))) ;;;
  match input_upload e with
  | Some err => ret (Some err)
  | None =>
    put_input blob_name {| blob_data := stream f;
                           blob_content_type := Some (content_type f) |} ;;;
    ret None
  end.

(** [input_blob.download_to_filename(path)] *)
Definition download_to_filename (e : env) (blob_name path : string)
  : M download_result :=
  record (DownloadToFilename INPUT_BUCKET_NAME blob_name path) ;;;
  match input_download e with
  | DownloadOk =>
    b <- get_input blob_name ;;
    match b with
    | Some b => write_file path (blob_data b) ;;; ret DownloadOk
    | None => ret (DownloadNotFound None)
    end
  | DownloadNotFound partial =>
    write_partial path partial ;;; ret (DownloadNotFound partial)
  | DownloadFails err partial =>
    write_partial path partial ;;; ret (DownloadFails err partial)
  end.

(** [ffmpeg.input(i).output(o).run(..., overwrite_output=True)] *)
Definition ffmpeg (e : env) (i o : string) : M ffmpeg_result :=
  record (FfmpegRun i o) ;;;
  match ffmpeg_run e with
  | FfmpegOk out => write_file o out ;;; ret (FfmpegOk out)
  | FfmpegError stderr partial =>
    write_partial o partial ;;; ret (FfmpegError stderr partial)
  | FfmpegOther err partial =>
    write_partial o partial ;;; ret (FfmpegOther err partial)
  end.

(** [output_blob.upload_from_filename(path)]; the call is made with the
    [content_type] it is given. *)
Definition upload_from_filename (e : env) (blob_name path : string)
    (ctype : option string) : M (option string) :=
  record (UploadFromFilename OUTPUT_BUCKET_NAME blob_name path ctype) ;;;
  f <- read_file path ;;
  match f, output_upload e with
  | None, _ => ret (Some ("[Errno 2] No such file or directory: '" +:+ path +:+ "'"))
  | Some _, Some err => ret (Some err)
  | Some data, None =>
    put_output blob_name {| blob_data := data; blob_content_type := ctype |} ;;;
    ret None
  end.

(** [e.stderr.decode(errors='ignore') if e.stderr else "Unknown ffmpeg error"] *)
Definition error_message (stderr : option string) : string :=
  match stderr with
  | None | Some EmptyString => "Unknown ffmpeg error"
  | Some text => text
  end.

(** The [try] block that uploads the result, with its [finally]. *)
Definition upload_output_and_clean_up (e : env)
    (target_format gcs_output_filename output_blob_name
     local_input_path local_output_path : string) : M response :=
  (* [output_content_type] is assigned here and read nowhere *)
  let output_content_type :=
    if String.eqb (Py.lower target_format) "mov" then Some "video/quicktime"
    else if String.eqb (Py.lower target_format) "avi" then Some "video/x-msvideo"
    else None in
  failed <- upload_from_filename e output_blob_name local_output_path None ;;
  (* finally: *)
  removed_input <- remove_if_exists e local_input_path ;;
  removed_output <- remove_if_exists e local_output_path ;;
  match failed with
  | Some err =>
    ret (Abort 500 ("Conversion successful, but failed to upload output to storage: "
                    +:+ err))
  | None => ret (Redirect "download_options" gcs_output_filename)
  end.

Definition convert_video (e : env) (req : request) : M response :=
  if negb (storage_client e) then
    ret (Abort 500 "Server configuration error: Storage client unavailable.")
  else
  match video req with
  | None => ret (Abort 400 "Missing file.")
  | Some video_file =>
  match format req with
  | None => ret (Abort 400 "Invalid file or format selected.")
  | Some target_format =>
  if String.eqb (filename video_file) "" || String.eqb target_format "" then
    ret (Abort 400 "Invalid file or format selected.")
  else
  let original_filename := filename video_file in
  let base_name := fst (Py.splitext original_filename) in
  let job_id := uuid4 e in
  let gcs_output_filename := gcs_output_filename job_id base_name target_format in
  let local_input_path := local_input_path job_id original_filename in
  let local_output_path := local_output_path job_id base_name target_format in
  let input_blob_name := input_blob_name job_id original_filename in
  let output_blob_name := output_blob_name job_id base_name target_format in
  (* upload the input *)
  up <- upload_from_file e input_blob_name video_file ;;
  match up with
  | Some err => ret (Abort 500 ("Failed to upload input file to storage: " +:+ err))
  | None =>
  (* fetch it back for processing *)
  down <- download_to_filename e input_blob_name local_input_path ;;
  match down with
  | DownloadNotFound _ =>
    ret (Abort 500 "Internal server error: Uploaded file disappeared.")
  | DownloadFails err _ =>
    remove_if_exists e local_input_path ;;;
    ret (Abort 500 ("Failed to retrieve file from storage for processing: " +:+ err))
  | DownloadOk =>
  (* transcode *)
  conv <- ffmpeg e local_input_path local_output_path ;;
  match conv with
  | FfmpegError stderr _ =>
    remove_if_exists e local_input_path ;;;
    ret (Abort 500 ("Error during conversion: " +:+ error_message stderr))
  | FfmpegOther err _ =>
    remove_if_exists e local_input_path ;;;
    ret (Abort 500 ("Unexpected error during conversion processing: " +:+ err))
  | FfmpegOk _ =>
    upload_output_and_clean_up e target_format gcs_output_filename
      output_blob_name local_input_path local_output_path
  end end end end end.

(** *** [download_options] *)

Definition url_for (endpoint filename : string) : string * string :=
  (endpoint, filename).

Definition download_options (e : env) (identifier : string) : M response :=
  if negb (storage_client e) then
    ret (Abort 500 "Server configuration error: Storage client unavailable.")
  else
  let video_blob_name := video_blob_name identifier in
  let transcription_filename := transcription_filename identifier in
  let transcription_blob_name := transcription_blob_name identifier in
  record (BlobExists OUTPUT_BUCKET_NAME video_blob_name) ;;;
  match blob_exists_fails e with
  | Some _ => ret (Abort 500 "Error checking for downloadable files in storage.")
  | None =>
    video_blob <- get_output video_blob_name ;;
    record (BlobExists OUTPUT_BUCKET_NAME transcription_blob_name) ;;;
    transcription_blob <- get_output transcription_blob_name ;;
    ret (Render "download_options.html" {|
      video_filename := identifier;
      video_available := bool_decide (is_Some video_blob);
      video_download_url :=
        if bool_decide (is_Some video_blob)
        then Some (url_for "download_video_file" identifier) else None;
      page_transcription_filename := transcription_filename;
      transcription_available := bool_decide (is_Some transcription_blob);
      transcription_download_url :=
        if bool_decide (is_Some transcription_blob)
        then Some (url_for "download_transcription_file" transcription_filename)
        else None |})
  end.

(** *** Vocabulary for the properties *)

(** The request passes the validation of [convert_video], with uploaded
    file [f] and target format [t]. *)
Definition accepted (e : env) (req : request) (f : file_storage) (t : string)
  : Prop :=
  storage_client e = true ∧ video req = Some f ∧ format req = Some t
  ∧ filename f ≠ "" ∧ t ≠ "".

(** Every object of either bucket in [w] is still an object in [w']. *)
Definition retains (w w' : world) : Prop :=
  (∀ k, is_Some (input_bucket w !! k) → is_Some (input_bucket w' !! k))
  ∧ (∀ k, is_Some (output_bucket w !! k) → is_Some (output_bucket w' !! k)).

(** A computation keeps [R] when [R] relates the world it starts in to the
    world it ends in. *)
Definition keeps {A} (R : world → world → Prop) (m : M A) : Prop :=
  ∀ w, R w (snd (m w)).

(** *** Reference runs *)

Definition empty_world : world := {|
  input_bucket := ∅; output_bucket := ∅; local_files := ∅; calls := [] |}.

(** An environment in which every call succeeds. *)
Definition healthy : env := {|
  storage_client := true;
  uuid4 := "0b9e6a52-7c1d-4f3a-9e2b-5d8c1a4f6e70";
  input_upload := None;
  input_download := DownloadOk;
  ffmpeg_run := FfmpegOk "converted bytes";
  output_upload := None;
  os_remove_fails := fun _ => false;
  blob_exists_fails := None |}.

Definition with_ffmpeg (r : ffmpeg_result) (e : env) : env := {|
  storage_client := storage_client e;
  uuid4 := uuid4 e;
  input_upload := input_upload e;
  input_download := input_download e;
  ffmpeg_run := r;
  output_upload := output_upload e;
  os_remove_fails := os_remove_fails e;
  blob_exists_fails := blob_exists_fails e |}.

Definition clip (target_format : string) : request := {|
  video := Some {| filename := "clip.mp4"; content_type := "video/mp4";
                   stream := "source bytes" |};
  format := Some target_format |}.

End App.

(** ** Vocabulary of the specification *)

Module Spec.

(** The extension of an object name as the specification speaks of it:
    the text after the last dot, if the name has a dot. *)
Definition extension (file_name : string) : option string :=
  let dotIndex := Py.rfind "." file_name in
  if dotIndex <? 0 then None
  else Some (Py.slice_from (Z.to_nat dotIndex + 1) file_name).

Definition video_extensions : list string :=
  ["mp4"; "mov"; "avi"; "mpg"; "mpeg"; "mkv"; "webm"].

(** The extension, compared case-insensitively, is one of the list. *)
Definition has_video_extension (file_name : string) : Prop :=
  ∃ x, extension file_name = Some x ∧ In (Py.lower x) video_extensions.

End Spec.

(** ** Serving stored objects ([Flask-VM-App/app.py], the download routes) *)

Module Serve.

Import App.

(** The two bucket objects of the module, [input_bucket] and
    [output_bucket]. *)
Inductive bucket :=
| InputBucket
| OutputBucket.

(** [bucket.name] *)
Definition bucket_name (b : bucket) : string :=
  match b with
  | InputBucket => INPUT_BUCKET_NAME
  | OutputBucket => OUTPUT_BUCKET_NAME
  end.

Definition objects (b : bucket) (w : world) : gmap string blob :=
  match b with
  | InputBucket => input_bucket w
  | OutputBucket => output_bucket w
  end.

(** What the environment decides during one download request. *)
Record transfer := {
  exists_error : option string;      (* [blob.exists()] raises *)
  fetch : download_result;           (* [blob.download_to_filename(path)] *)
  send_file_error : option string    (* [send_file(...)] raises *)
}.

(** The answer of a download route: the file sent as an attachment, or the
    [HTTPException] raised by [abort]. *)
Inductive served :=
| SendFile (path download_name data : string)
| Aborted (code : Z) (description : string).

(** [blob.exists()] against the store *)
Definition blob_present (b : bucket) (blob_name : string) : M bool :=
  fun w => (bool_decide (is_Some (objects b w !! blob_name)), w).

(** [blob.download_to_filename(path)] for a blob of bucket [b] *)
Definition download_blob (t : transfer) (b : bucket) (blob_name path : string)
  : M download_result :=
  record (DownloadToFilename (bucket_name b) blob_name path) ;;;
  match fetch t with
  | DownloadOk =>
    o <- (fun w => (objects b w !! blob_name, w)) ;;
    match o with
    | Some stored => write_file path (blob_data stored) ;;; ret DownloadOk
    | None => ret (DownloadNotFound None)
    end
  | DownloadNotFound partial =>
    write_partial path partial ;;; ret (DownloadNotFound partial)
  | DownloadFails err partial =>
    write_partial path partial ;;; ret (DownloadFails err partial)
  end.

(** [str(e)] of the exception that [abort(404, description="File not found.")]
    raises: werkzeug prints code, name and description. *)
Definition str_abort_404 : string := "404 Not Found: File not found.".

(** The clause [except Exception as e] of [download_blob_and_serve]: remove
    the local copy if there is one, then [abort(500, ...)]. *)
Definition on_exception (e : env) (local_temp_download_path msg : string)
  : M served :=
  remove_if_exists e local_temp_download_path ;;;
  ret (Aborted 500 ("An error occurred while processing the download: " +:+ msg)).

(** The body of [download_blob_and_serve].  The second component tells
    whether [remove_temp_file] was registered with [after_this_request].

    [abort] raises an [HTTPException], which is an [Exception]: the
    [abort(404)] inside the [try] block is caught by [except Exception].
    The clause [except NotFound] names the exception of the storage
    library, which only the store calls raise. *)
Definition download_blob_and_serve_body (e : env) (t : transfer) (b : bucket)
    (blob_name download_filename : string) : M (served * bool) :=
  if negb (storage_client e) then
    ret (Aborted 500 "Server configuration error: Storage client unavailable.", false)
  else
  let local_temp_download_path := Py.path_join TEMP_DOWNLOAD_DIR download_filename in
  record (BlobExists (bucket_name b) blob_name) ;;;
  match exists_error t with
  | Some err =>
    r <- on_exception e local_temp_download_path err ;; ret (r, false)
  | None =>
  present <- blob_present b blob_name ;;
  if negb present then
    r <- on_exception e local_temp_download_path str_abort_404 ;; ret (r, false)
  else
  down <- download_blob t b blob_name local_temp_download_path ;;
  match down with
  | DownloadNotFound _ => ret (Aborted 404 "File not found.", false)
  | DownloadFails err _ =>
    r <- on_exception e local_temp_download_path err ;; ret (r, false)
  | DownloadOk =>
    (* [@after_this_request def remove_temp_file(response)] *)
    match send_file_error t with
    | Some err => r <- on_exception e local_temp_download_path err ;; ret (r, true)
    | None =>
      data <- read_file local_temp_download_path ;;
      match data with
      | Some data => ret (SendFile local_temp_download_path download_filename data, true)
      | None =>
        r <- on_exception e local_temp_download_path
               ("[Errno 2] No such file or directory: '"
                +:+ local_temp_download_path +:+ "'") ;;
        ret (r, true)
      end
    end
  end end.

(** [remove_temp_file], run by the framework once the handler is done:
    [[
      try: os.remove(local_temp_download_path)
      except OSError as e: logging.error(...)
    ]] *)
Definition remove_temp_file (e : env) (local_temp_download_path : string) : M unit :=
  os_remove e local_temp_download_path ;;; ret tt.

(** One request to a download route: the handler, then the functions it
    registered with [after_this_request]. *)
Definition download_blob_and_serve (e : env) (t : transfer) (b : bucket)
    (blob_name download_filename : string) : M served :=
  r <- download_blob_and_serve_body e t b blob_name download_filename ;;
  (if snd r
   then remove_temp_file e (Py.path_join TEMP_DOWNLOAD_DIR download_filename)
   else ret tt) ;;;
  ret (fst r).

Definition download_video_file (e : env) (t : transfer) (filename : string)
  : M served :=
  let blob_name := "converted/" +:+ filename in
  download_blob_and_serve e t OutputBucket blob_name filename.

Definition download_transcription_file (e : env) (t : transfer) (filename : string)
  : M served :=
  let blob_name := "transcriptions/converted/" +:+ filename in
  download_blob_and_serve e t OutputBucket blob_name filename.

(** The routes that [url_for] names in [download_options]. *)
Definition route (endpoint : string) : option (env → transfer → string → M served) :=
  if String.eqb endpoint "download_video_file" then Some download_video_file
  else if String.eqb endpoint "download_transcription_file"
       then Some download_transcription_file
  else None.

(** A request during which every call succeeds. *)
Definition smooth : transfer := {|
  exists_error := None; fetch := DownloadOk; send_file_error := None |}.

End Serve.

(** ** Vocabulary for the further properties *)

Module More.


(** The buckets are as they were. *)
Definition same_buckets (w w' : App.world) : Prop :=
  App.input_bucket w' = App.input_bucket w
  ∧ App.output_bucket w' = App.output_bucket w.

(** Environments that differ from [e] in one answer. *)
Definition with_output_upload (r : option string) (e : App.env) : App.env := {|
  App.storage_client := App.storage_client e;
  App.uuid4 := App.uuid4 e;
  App.input_upload := App.input_upload e;
  App.input_download := App.input_download e;
  App.ffmpeg_run := App.ffmpeg_run e;
  App.output_upload := r;
  App.os_remove_fails := App.os_remove_fails e;
  App.blob_exists_fails := App.blob_exists_fails e |}.

Definition with_input_download (r : App.download_result) (e : App.env) : App.env := {|
  App.storage_client := App.storage_client e;
  App.uuid4 := App.uuid4 e;
  App.input_upload := App.input_upload e;
  App.input_download := r;
  App.ffmpeg_run := App.ffmpeg_run e;
  App.output_upload := App.output_upload e;
  App.os_remove_fails := App.os_remove_fails e;
  App.blob_exists_fails := App.blob_exists_fails e |}.

Definition without_client (e : App.env) : App.env := {|
  App.storage_client := false;
  App.uuid4 := App.uuid4 e;
  App.input_upload := App.input_upload e;
  App.input_download := App.input_download e;
  App.ffmpeg_run := App.ffmpeg_run e;
  App.output_upload := App.output_upload e;
  App.os_remove_fails := App.os_remove_fails e;
  App.blob_exists_fails := App.blob_exists_fails e |}.

(** A world that holds a transcript and a stray file. *)
Definition stocked : App.world := {|
  App.input_bucket := ∅;
  App.output_bucket :=
    {[ "converted/j_clip.mov" :=
         {| App.blob_data := "video"; App.blob_content_type := None |};
       "transcriptions/converted/j_clip.json" :=
         {| App.blob_data := "{}"; App.blob_content_type := None |} ]};
  App.local_files := {[ "/tmp/videoconverter_downloads/other.bin" := "kept" ]};
  App.calls := [] |}.

End More.

(** * Properties *)

(** ** Reference evaluations *)

Example splitext_plain : Py.splitext "clip.mp4" = ("clip", ".mp4").
Proof. reflexivity. Qed.

Example splitext_dotfile : Py.splitext "dir.d/.bashrc" = ("dir.d/.bashrc", "").
Proof. reflexivity. Qed.

Example splitext_dots : Py.splitext "a/..b.tar.gz" = ("a/..b.tar", ".gz").
Proof. reflexivity. Qed.

Example splitext_noext : Py.splitext "a.b/c" = ("a.b/c", "").
Proof. reflexivity. Qed.

Example lower_mixed : Py.lower "Clip.MoV" = "clip.mov".
Proof. reflexivity. Qed.

Example endswith_any_ex : Py.endswith_any "x.mkv" [".mp4"; ".mkv"] = true.
Proof. reflexivity. Qed.

Example path_join_ex : Py.path_join "/tmp/p" "input_x" = "/tmp/p/input_x".
Proof. reflexivity. Qed.

Example trigger_submits :
  Trigger.jobs Trigger.healthy
    {| Trigger.bucket := Some "b"; Trigger.name := Some "converted/j_clip.MOV" |}
  = [ {| Trigger.features := ["SPEECH_TRANSCRIPTION"];
         Trigger.input_uri := "gs://b/converted/j_clip.MOV";
         Trigger.output_uri := "gs://b/transcriptions/converted/j_clip.json";
         Trigger.language_code := "en-US";
         Trigger.enable_automatic_punctuation := true;
         Trigger.enable_speaker_diarization := true |} ].
Proof. reflexivity. Qed.

Example trigger_skips_output_folder :
  Trigger.jobs Trigger.healthy
    {| Trigger.bucket := Some "b"; Trigger.name := Some "transcriptions/x.mp4" |} = [].
Proof. reflexivity. Qed.

Example convert_clip_response :
  fst (App.convert_video App.healthy (App.clip "mov") App.empty_world)
  = App.Redirect "download_options" "0b9e6a52-7c1d-4f3a-9e2b-5d8c1a4f6e70_clip.mov".
Proof. vm_compute. reflexivity. Qed.

Example convert_clip_calls :
  App.calls (snd (App.convert_video App.healthy (App.clip "mov") App.empty_world))
  = [ App.UploadFromFile "video-image-input-bucket"
        "uploads/0b9e6a52-7c1d-4f3a-9e2b-5d8c1a4f6e70_clip.mp4" (Some "video/mp4");
      App.DownloadToFilename "video-image-input-bucket"
        "uploads/0b9e6a52-7c1d-4f3a-9e2b-5d8c1a4f6e70_clip.mp4"
        "/tmp/videoconverter_processing/input_0b9e6a52-7c1d-4f3a-9e2b-5d8c1a4f6e70_clip.mp4";
      App.FfmpegRun
        "/tmp/videoconverter_processing/input_0b9e6a52-7c1d-4f3a-9e2b-5d8c1a4f6e70_clip.mp4"
        "/tmp/videoconverter_processing/output_0b9e6a52-7c1d-4f3a-9e2b-5d8c1a4f6e70_clip.mov";
      App.UploadFromFilename "video-image-output-bucket"
        "converted/0b9e6a52-7c1d-4f3a-9e2b-5d8c1a4f6e70_clip.mov"
        "/tmp/videoconverter_processing/output_0b9e6a52-7c1d-4f3a-9e2b-5d8c1a4f6e70_clip.mov"
        None;
      App.OsRemove
        "/tmp/videoconverter_processing/input_0b9e6a52-7c1d-4f3a-9e2b-5d8c1a4f6e70_clip.mp4";
      App.OsRemove
        "/tmp/videoconverter_processing/output_0b9e6a52-7c1d-4f3a-9e2b-5d8c1a4f6e70_clip.mov" ].
Proof. vm_compute. reflexivity. Qed.

(** ** Facts about the string primitives *)

Section StringFacts.

Implicit Types (s p x : string) (c : ascii).

Lemma str_app_cons a s1 s2 : String a s1 +:+ s2 = String a (s1 +:+ s2).
Proof. reflexivity. Qed.

Lemma str_app_nil_r s : s +:+ "" = s.
Proof. induction s as [|a s IH]; [reflexivity|]. by rewrite str_app_cons, IH. Qed.

Lemma str_app_assoc s1 s2 s3 : (s1 +:+ s2) +:+ s3 = s1 +:+ s2 +:+ s3.
Proof.
  induction s1 as [|a s1 IH]; [reflexivity|].
  by rewrite !str_app_cons, IH.
Qed.

Lemma str_length_app s1 s2 :
  String.length (s1 +:+ s2) = (String.length s1 + String.length s2)%nat.
Proof.
  induction s1 as [|a s1 IH]; [reflexivity|].
  rewrite str_app_cons. cbn. by rewrite IH.
Qed.

Lemma len_cons a s : Py.len (String a s) = 1 + Py.len s.
Proof. unfold Py.len. cbn [String.length]. lia. Qed.

Lemma len_nonneg s : 0 <= Py.len s.
Proof. unfold Py.len. lia. Qed.

Lemma occurs_app c s1 s2 : Py.occurs c (s1 +:+ s2) = Py.occurs c s1 || Py.occurs c s2.
Proof.
  induction s1 as [|a s1 IH]; [reflexivity|].
  rewrite str_app_cons. cbn. by rewrite IH, orb_assoc.
Qed.

(** *** Slices *)

Lemma slice_to_app s1 s2 : Py.slice_to (String.length s1) (s1 +:+ s2) = s1.
Proof.
  induction s1 as [|a s1 IH]; [by destruct s2|].
  rewrite str_app_cons. cbn. by rewrite IH.
Qed.

Lemma slice_from_app s1 s2 : Py.slice_from (String.length s1) (s1 +:+ s2) = s2.
Proof. induction s1 as [|a s1 IH]; [reflexivity|]. by rewrite str_app_cons. Qed.

Lemma slice_from_all s : Py.slice_from (String.length s) s = "".
Proof. induction s as [|a s IH]; [reflexivity|]. exact IH. Qed.

Lemma slice1_app s1 a s2 : Py.slice1 (String.length s1) (s1 +:+ String a s2) = String a "".
Proof. unfold Py.slice1. by rewrite slice_from_app. Qed.

Lemma split_at n s : s = Py.slice_to n s +:+ Py.slice_from n s.
Proof.
  revert s; induction n as [|n IH]; intros [|a s]; try reflexivity.
  cbn [Py.slice_to Py.slice_from]. rewrite str_app_cons. by rewrite <- IH.
Qed.

Lemma length_slice_from n s :
  String.length (Py.slice_from n s) = (String.length s - n)%nat.
Proof.
  revert s; induction n as [|n IH]; intros [|a s]; cbn; try reflexivity.
  apply IH.
Qed.

(** *** [rfind] *)

Lemma rfind_go_app c s1 s2 i last :
  Py.rfind_go c (s1 +:+ s2) i last
  = Py.rfind_go c s2 (i + Py.len s1) (Py.rfind_go c s1 i last).
Proof.
  revert i last; induction s1 as [|a s1 IH]; intros i last.
  - cbn. f_equal. unfold Py.len. cbn. lia.
  - rewrite str_app_cons. cbn [Py.rfind_go]. rewrite IH. f_equal.
    rewrite len_cons. lia.
Qed.

Lemma rfind_go_absent c s i last : Py.occurs c s = false → Py.rfind_go c s i last = last.
Proof.
  revert i last; induction s as [|a s IH]; intros i last H; [reflexivity|].
  cbn in H. apply orb_false_iff in H as [Ha Hs].
  cbn. rewrite Ha. by apply IH.
Qed.

Lemma rfind_go_range c s i last :
  Py.rfind_go c s i last = last
  ∨ i <= Py.rfind_go c s i last < i + Py.len s.
Proof.
  revert i last; induction s as [|a s IH]; intros i last; [by left|].
  cbn [Py.rfind_go]. rewrite len_cons.
  destruct (IH (i + 1) (if Ascii.eqb a c then i else last)) as [-> | H].
  - destruct (Ascii.eqb a c); [right|by left]. pose proof (len_nonneg s). lia.
  - right. pose proof (len_nonneg s). lia.
Qed.

Lemma rfind_range c s : -1 <= Py.rfind c s < Py.len s.
Proof.
  unfold Py.rfind. pose proof (len_nonneg s).
  destruct (rfind_go_range c s 0 (-1)) as [-> | R]; lia.
Qed.

(** The last occurrence: nothing equal to [c] follows it. *)
Lemma rfind_last c s1 s2 :
  Py.occurs c s2 = false → Py.rfind c (s1 +:+ String c s2) = Py.len s1.
Proof.
  intros H. unfold Py.rfind. rewrite rfind_go_app. cbn [Py.rfind_go].
  rewrite Ascii.eqb_refl. rewrite rfind_go_absent by done. lia.
Qed.

Lemma rfind_app_absent c s1 s2 :
  Py.occurs c s2 = false → Py.rfind c (s1 +:+ s2) = Py.rfind c s1.
Proof.
  intros H. unfold Py.rfind. rewrite rfind_go_app. by apply rfind_go_absent.
Qed.

Lemma rfind_absent c s : Py.occurs c s = false → Py.rfind c s = -1.
Proof. intros H. by apply rfind_go_absent. Qed.

(** *** [endswith] *)

Lemma slice_from_add s1 s2 m :
  Py.slice_from (String.length s1 + m) (s1 +:+ s2) = Py.slice_from m s2.
Proof. induction s1 as [|a s1 IH]; [reflexivity|]. by rewrite str_app_cons. Qed.

Lemma endswith_suffix s x : Py.endswith s x = true ↔ ∃ pre, s = pre +:+ x.
Proof.
  unfold Py.endswith. rewrite andb_true_iff, Nat.leb_le, String.eqb_eq. split.
  - intros [_ E].
    remember (String.length s - String.length x)%nat as n eqn:Hn. clear Hn.
    subst x. eexists. apply split_at.
  - intros [pre ->]. rewrite str_length_app. split; [lia|].
    replace (String.length pre + String.length x - String.length x)%nat
      with (String.length pre) by lia.
    apply slice_from_app.
Qed.

(** Whether [pre +:+ s] ends with [x] is decided by [s] alone as soon as
    [x] is no longer than [s]. *)
Lemma endswith_app pre s x :
  (String.length x <= String.length s)%nat →
  Py.endswith (pre +:+ s) x = Py.endswith s x.
Proof.
  intros L. unfold Py.endswith. rewrite str_length_app.
  replace (String.length pre + String.length s - String.length x)%nat
    with (String.length pre + (String.length s - String.length x))%nat by lia.
  rewrite slice_from_add. f_equal.
  apply Nat.leb_le in L as L'. rewrite L'. apply Nat.leb_le. lia.
Qed.

Lemma endswith_any_true s t :
  Py.endswith_any s t = true ↔ ∃ x, In x t ∧ Py.endswith s x = true.
Proof. apply existsb_exists. Qed.

(** *** [lower] *)

Lemma lower_ascii_dot a : Ascii.eqb (Py.lower_ascii a) "." = Ascii.eqb a ".".
Proof. by destruct a as [[] [] [] [] [] [] [] []]. Qed.

Lemma rfind_go_lower_dot s i last :
  Py.rfind_go "." (Py.lower s) i last = Py.rfind_go "." s i last.
Proof.
  revert i last; induction s as [|a s IH]; intros i last; [reflexivity|].
  cbn. by rewrite lower_ascii_dot, IH.
Qed.

Lemma slice_from_lower n s : Py.slice_from n (Py.lower s) = Py.lower (Py.slice_from n s).
Proof. revert s; induction n as [|n IH]; intros [|a s]; cbn; auto. Qed.

Lemma lower_app s1 s2 : Py.lower (s1 +:+ s2) = Py.lower s1 +:+ Py.lower s2.
Proof.
  induction s1 as [|a s1 IH]; [reflexivity|].
  rewrite str_app_cons. cbn [Py.lower]. by rewrite IH.
Qed.

(** The tuple test of the handler, read as a statement on extensions. *)
Lemma extension_of_suffix n e :
  Py.occurs "." e = false →
  Py.endswith (Py.lower n) (String "." e) = true →
  ∃ x, Spec.extension n = Some x ∧ Py.lower x = e.
Proof.
  intros He [pre E]%endswith_suffix. unfold Spec.extension.
  assert (Py.rfind "." n = Py.len pre) as ->.
  { unfold Py.rfind. rewrite <- rfind_go_lower_dot, E. by apply rfind_last. }
  pose proof (len_nonneg pre) as L.
  destruct (Z.ltb_spec (Py.len pre) 0) as [?|_]; [lia|].
  eexists; split; [reflexivity|].
  rewrite <- slice_from_lower, E. unfold Py.len. rewrite Nat2Z.id.
  by rewrite slice_from_add.
Qed.

(** *** [splitext] *)

Lemma splitext_loop_hit p steps i j :
  (i <= j < i + steps)%nat → Py.slice1 j p ≠ "." →
  Py.splitext_loop p i steps = true.
Proof.
  revert i; induction steps as [|steps IH]; intros i R N; [lia|].
  cbn [Py.splitext_loop].
  destruct (String.eqb_spec (Py.slice1 i p) ".") as [E|E]; [|reflexivity].
  cbn. apply IH; [|done].
  assert (i ≠ j) by (intros ->; contradiction). lia.
Qed.

(** [splitext] cuts a path with a proper file name at its last dot. *)
Lemma splitext_ext root e :
  Py.named root → Py.occurs "." e = false → Py.occurs "/" e = false →
  Py.splitext (root +:+ String "." e) = (root, String "." e).
Proof.
  intros (a & c & b & -> & Hdot & Hsep & Hb) He Hse.
  unfold Py.splitext.
  rewrite (rfind_last "." _ e He).
  assert (Py.rfind "/" ((a +:+ String c b) +:+ String "." e) = Py.rfind "/" a) as ->.
  { rewrite str_app_assoc. apply rfind_app_absent.
    rewrite str_app_cons. cbn [Py.occurs]. rewrite occurs_app. cbn [Py.occurs].
    rewrite Hb, Hse. apply Ascii.eqb_neq in Hsep. by rewrite Hsep. }
  pose proof (rfind_range "/" a) as R.
  assert (Py.len (a +:+ String c b) = Py.len a + 1 + Py.len b) as L.
  { unfold Py.len. rewrite str_length_app. cbn [String.length]. lia. }
  pose proof (len_nonneg b) as Lb.
  replace (Py.len (a +:+ String c b) >? Py.rfind "/" a) with true
    by (symmetry; apply Z.gtb_lt; lia).
  rewrite (splitext_loop_hit _ _ _ (String.length a)).
  - unfold Py.len. rewrite Nat2Z.id. cbn [andb].
    by rewrite slice_to_app, slice_from_app.
  - unfold Py.len in *. lia.
  - rewrite str_app_assoc, str_app_cons, slice1_app.
    intros [= ->]. by apply Hdot.
Qed.

End StringFacts.

(** ** The storage-event handler *)

Section TriggerFacts.

Import Trigger.

Implicit Types (svc : service) (ev : cloud_event).

(** An event without a usable bucket or object name is discarded. *)
Lemma process_missing svc ev :
  truthy (bucket ev) = false ∨ truthy (name ev) = false →
  process_video_transcription svc ev
  = (Returned, [Print "Error: Bucket name or file name missing in event data."]).
Proof.
  unfold process_video_transcription.
  destruct (bucket ev) as [b|], (name ev) as [n|]; try reflexivity.
  intros [-> | ->]; [reflexivity|]. by rewrite orb_true_r.
Qed.

(** The extension test alone discards the event: whatever the other
    checks say, an object name that fails it is printed and dropped. *)
Lemma process_unsupported svc ev n :
  name ev = Some n →
  Py.endswith_any (Py.lower n) supported_extensions = false →
  ∃ msg, process_video_transcription svc ev = (Returned, [Print msg]).
Proof.
  intros Hn Hx. unfold process_video_transcription. rewrite Hn.
  destruct (bucket ev) as [b|]; [|eauto].
  destruct (negb (truthy (Some b)) || negb (truthy (Some n))); [eauto|].
  destruct (Py.startswith n OUTPUT_FOLDER); [eauto|].
  rewrite Hx. cbn. eauto.
Qed.

(** An eligible event reaches the service. *)
Lemma process_eligible svc b n :
  b ≠ "" → n ≠ "" →
  Py.startswith n OUTPUT_FOLDER = false →
  Py.endswith_any (Py.lower n) supported_extensions = true →
  VideoIntelligenceServiceClient svc = Ok tt →
  jobs svc {| bucket := Some b; name := Some n |}
  = [ {| features := ["SPEECH_TRANSCRIPTION"];
         input_uri := gcs_input_uri b n;
         output_uri := gcs_output_uri b n;
         language_code := "en-US";
         enable_automatic_punctuation := true;
         enable_speaker_diarization := true |} ].
Proof.
  intros Hb Hn Hp Hx Hc. unfold jobs, process_video_transcription. cbn [bucket name].
  destruct b as [|b0 b]; [done|]. destruct n as [|n0 n]; [done|].
  cbn [truthy negb orb]. rewrite Hp, Hx, Hc. cbn [negb].
  by destruct (annotate_video svc _).
Qed.

Lemma gcs_output_uri_object b n :
  gcs_output_uri b n = "gs://" +:+ b +:+ "/" +:+ output_object_name n.
Proof. reflexivity. Qed.

End TriggerFacts.

Section TriggerClaims.

Import Trigger.

Lemma supported_has_video_extension n :
  Py.endswith_any (Py.lower n) supported_extensions = true →
  Spec.has_video_extension n.
Proof.
  intros (x & Hin & Hx)%endswith_any_true.
  unfold supported_extensions in Hin. cbn [In] in Hin.
  repeat (destruct Hin as [<- | Hin];
    [ apply extension_of_suffix in Hx as (y & Hy & Hl); [|reflexivity];
      exists y; split; [exact Hy|]; rewrite Hl; cbn; tauto | ]).
  contradiction.
Qed.

(** C6.  An event whose object name has an extension that, compared
    case-insensitively, is none of mp4, mov, avi, mpg, mpeg, mkv, webm (or
    has no extension at all) is discarded: the handler returns and submits
    no transcription job. *)
Theorem trigger_discards_unsupported_extension svc ev :
  (∀ n, name ev = Some n → ¬ Spec.has_video_extension n) →
  fst (process_video_transcription svc ev) = Returned ∧ jobs svc ev = [].
Proof.
  intros H. unfold jobs. destruct (name ev) as [n|] eqn:Hn.
  - destruct (process_unsupported svc ev n Hn) as [msg ->]; [|done].
    destruct (Py.endswith_any _ _) eqn:E; [|done].
    by apply supported_has_video_extension, H in E.
  - rewrite process_missing; [done|]. right. by rewrite Hn.
Qed.

Lemma trigger_discards_unsupported_extension_witness :
  fst (process_video_transcription healthy
         {| bucket := Some "video-image-input-bucket";
            name := Some "uploads/j_notes.TXT" |}) = Returned
  ∧ jobs healthy {| bucket := Some "video-image-input-bucket";
                    name := Some "uploads/j_notes.TXT" |} = [].
Proof.
  apply trigger_discards_unsupported_extension.
  intros n [= <-] (x & Hx & Hin). vm_compute in Hx. injection Hx as <-.
  vm_compute in Hin. intuition discriminate.
Defined.

(** C8.  An object name that ends with .json, case-insensitively, fails
    the extension test of the handler by itself, so the event is discarded
    and no job is submitted, in any bucket and under any prefix. *)
Theorem trigger_never_retranscribes_json svc ev n :
  name ev = Some n →
  Py.endswith (Py.lower n) ".json" = true →
  Py.endswith_any (Py.lower n) supported_extensions = false
  ∧ fst (process_video_transcription svc ev) = Returned
  ∧ jobs svc ev = [].
Proof.
  intros Hn [pre E]%endswith_suffix.
  assert (Py.endswith_any (Py.lower n) supported_extensions = false) as Hx.
  { rewrite E. unfold Py.endswith_any, supported_extensions. cbn [existsb].
    rewrite !endswith_app by (cbn; lia). reflexivity. }
  split; [exact Hx|]. unfold jobs.
  by destruct (process_unsupported svc ev n Hn Hx) as [msg ->].
Qed.

Lemma trigger_never_retranscribes_json_witness :
  Py.endswith_any (Py.lower "converted/j_clip.JSON") supported_extensions = false
  ∧ fst (process_video_transcription healthy
           {| bucket := Some "video-image-output-bucket";
              name := Some "converted/j_clip.JSON" |}) = Returned
  ∧ jobs healthy {| bucket := Some "video-image-output-bucket";
                    name := Some "converted/j_clip.JSON" |} = [].
Proof.
  apply (trigger_never_retranscribes_json healthy _ "converted/j_clip.JSON");
    reflexivity.
Defined.

(** C7, as stated, fails: when constructing the client raises, the
    exception leaves the handler. *)
Lemma trigger_raises_when_client_fails :
  fst (process_video_transcription no_credentials
         {| bucket := Some "video-image-output-bucket";
            name := Some "converted/j_clip.mov" |})
  = Raised "DefaultCredentialsError".
Proof. reflexivity. Qed.

(** C7, amended.  In every invocation in which the client is constructed,
    the handler returns normally whatever the submission does: an
    exception raised by [annotate_video] is caught and printed. *)
Theorem trigger_swallows_submission_failure svc ev :
  VideoIntelligenceServiceClient svc = Ok tt →
  fst (process_video_transcription svc ev) = Returned
  ∧ ∀ r e, In r (jobs svc ev) → annotate_video svc r = Raise e →
      last (snd (process_video_transcription svc ev))
      = Some (Print ("Error starting transcription for "
                     +:+ input_uri r +:+ ": " +:+ e)).
Proof.
  intros Hc. unfold jobs, process_video_transcription.
  destruct (bucket ev) as [b|], (name ev) as [n|]; try (split; [done|]; by intros ? ? []).
  repeat (match goal with |- context [if ?c then _ else _] => destruct c end;
          try (split; [done|]; by intros ? ? [])).
  rewrite Hc. destruct (annotate_video svc _) as [op|err] eqn:Ha.
  - split; [done|]. cbn. intros r e [<- | []] Hr.
    rewrite Ha in Hr. discriminate.
  - split; [done|]. cbn. intros r e [<- | []] Hr.
    rewrite Ha in Hr. by injection Hr as <-.
Qed.

Lemma trigger_swallows_submission_failure_witness :
  fst (process_video_transcription quota_exceeded
         {| bucket := Some "b"; name := Some "converted/j_clip.mov" |}) = Returned
  ∧ last (snd (process_video_transcription quota_exceeded
                 {| bucket := Some "b"; name := Some "converted/j_clip.mov" |}))
    = Some (Print "Error starting transcription for gs://b/converted/j_clip.mov: 429 Quota exceeded").
Proof.
  destruct (trigger_swallows_submission_failure quota_exceeded
              {| bucket := Some "b"; name := Some "converted/j_clip.mov" |}
              eq_refl) as [R L].
  split; [exact R|].
  exact (L _ "429 Quota exceeded" (or_introl eq_refl) eq_refl).
Defined.

End TriggerClaims.

(** ** The naming protocol *)

Section NamingClaims.

Import Trigger.

Lemma named_clip a : Py.named (a +:+ "_clip").
Proof. exists a, "_"%char, "clip". by repeat split. Qed.

Lemma splitext_clip a e :
  Py.occurs "." e = false → Py.occurs "/" e = false →
  Py.splitext (a +:+ "_clip." +:+ e) = (a +:+ "_clip", String "." e).
Proof.
  intros He Hs.
  replace (a +:+ "_clip." +:+ e) with ((a +:+ "_clip") +:+ String "." e)
    by (by rewrite str_app_assoc).
  apply splitext_ext; [apply named_clip|done..].
Qed.

Lemma splitext_clip_mov a :
  Py.splitext (a +:+ "_clip.mov") = (a +:+ "_clip", ".mov").
Proof. exact (splitext_clip a "mov" eq_refl eq_refl). Qed.

Lemma clip_is_supported a :
  Py.endswith_any (Py.lower (a +:+ "_clip.mov")) supported_extensions = true.
Proof.
  apply endswith_any_true. exists ".mov". split; [cbn; tauto|].
  apply endswith_suffix. exists (Py.lower (a +:+ "_clip")).
  replace (a +:+ "_clip.mov") with ((a +:+ "_clip") +:+ ".mov")
    by (by rewrite str_app_assoc).
  by rewrite lower_app.
Qed.

Lemma lookup_name_clip id :
  App.transcription_blob_name (id +:+ "_clip.mov")
  = "transcriptions/converted/" +:+ id +:+ "_clip.json".
Proof.
  unfold App.transcription_blob_name, App.transcription_filename.
  rewrite splitext_clip_mov. cbn [fst]. by rewrite str_app_assoc.
Qed.

Lemma output_name_clip id :
  output_object_name (App.video_blob_name (id +:+ "_clip.mov"))
  = "transcriptions/converted/" +:+ id +:+ "_clip.json".
Proof.
  unfold output_object_name, App.video_blob_name.
  replace ("converted/" +:+ id +:+ "_clip.mov")
    with (("converted/" +:+ id) +:+ "_clip.mov")
    by (by rewrite str_app_assoc).
  rewrite splitext_clip_mov. cbn [fst]. by rewrite !str_app_assoc.
Qed.

(** Once the service has written the transcript where the trigger asked for
    it, the availability check of the converted video reports it. *)
Lemma transcript_is_found id (e : App.env) (w : App.world) :
  App.storage_client e = true → App.blob_exists_fails e = None →
  is_Some (App.output_bucket w
             !! output_object_name (App.video_blob_name (id +:+ "_clip.mov"))) →
  ∃ page,
    fst (App.download_options e (id +:+ "_clip.mov") w)
    = App.Render "download_options.html" page
    ∧ App.transcription_available page = true.
Proof.
  intros Hc Hx Hb. unfold App.download_options. rewrite Hc. cbn [negb].
  unfold App.bind, App.record, App.get_output, App.ret. rewrite Hx. cbn.
  eexists; split; [reflexivity|]. cbn.
  apply bool_decide_eq_true. by rewrite lookup_name_clip, <- output_name_clip.
Qed.

(** C1.  For every job identifier [id], the trigger that processes the
    object converted/{id}_clip.mov of the output bucket asks for its
    transcript at the very object the availability check of identifier
    {id}_clip.mov looks up; both are transcriptions/converted/{id}_clip.json
    in the output bucket. *)
Theorem transcript_path_round_trip
    (id : string) (submit : annotate_request → raised string) :
  let identifier := id +:+ "_clip.mov" in
  let svc := {| VideoIntelligenceServiceClient := Ok tt;
                annotate_video := submit |} in
  let ev := {| bucket := Some App.OUTPUT_BUCKET_NAME;
               name := Some (App.video_blob_name identifier) |} in
  map output_uri (jobs svc ev)
  = ["gs://" +:+ App.OUTPUT_BUCKET_NAME +:+ "/"
     +:+ App.transcription_blob_name identifier]
  ∧ output_object_name (App.video_blob_name identifier)
    = App.transcription_blob_name identifier
  ∧ App.transcription_blob_name identifier
    = "transcriptions/converted/" +:+ id +:+ "_clip.json".
Proof.
  intros identifier svc ev.
  pose proof (lookup_name_clip id) as Lookup.
  pose proof (output_name_clip id) as Output.
  fold identifier in Lookup, Output.
  split; [|by rewrite Output, Lookup].
  unfold ev, svc. rewrite process_eligible; try done.
  - cbn [map output_uri]. by rewrite gcs_output_uri_object, Output, Lookup.
  - unfold App.video_blob_name, identifier.
    replace ("converted/" +:+ id +:+ "_clip.mov")
      with (("converted/" +:+ id) +:+ "_clip.mov")
      by (by rewrite str_app_assoc).
    apply clip_is_supported.
Qed.

(** C10.  Identifiers that differ only in their extension are looked up
    under one transcript name, the one of their common base: the lookup
    name is not injective. *)
Theorem transcript_lookup_ignores_extension (root e1 e2 : string) :
  Py.named root →
  Py.occurs "." e1 = false → Py.occurs "/" e1 = false →
  Py.occurs "." e2 = false → Py.occurs "/" e2 = false →
  e1 ≠ e2 →
  let i1 := root +:+ String "." e1 in
  let i2 := root +:+ String "." e2 in
  i1 ≠ i2
  ∧ fst (Py.splitext i1) = root ∧ fst (Py.splitext i2) = root
  ∧ App.transcription_blob_name i1 = App.transcription_blob_name i2
  ∧ App.transcription_blob_name i1
    = "transcriptions/converted/" +:+ root +:+ ".json".
Proof.
  intros Hr H1 S1 H2 S2 Hne i1 i2.
  assert (Py.splitext i1 = (root, String "." e1)) as E1 by by apply splitext_ext.
  assert (Py.splitext i2 = (root, String "." e2)) as E2 by by apply splitext_ext.
  split; [|by unfold App.transcription_blob_name, App.transcription_filename;
             rewrite E1, E2].
  unfold i1, i2. intros E. apply (inj (String.app root)) in E.
  by injection E.
Qed.

Lemma transcript_lookup_ignores_extension_witness :
  "j_clip.mp4" ≠ "j_clip.mov"
  ∧ fst (Py.splitext "j_clip.mp4") = "j_clip"
  ∧ fst (Py.splitext "j_clip.mov") = "j_clip"
  ∧ App.transcription_blob_name "j_clip.mp4" = App.transcription_blob_name "j_clip.mov"
  ∧ App.transcription_blob_name "j_clip.mp4" = "transcriptions/converted/j_clip.json".
Proof.
  apply (transcript_lookup_ignores_extension "j_clip" "mp4" "mov");
    [apply (named_clip "j")|reflexivity..|discriminate].
Defined.

End NamingClaims.

Section DerivedNames.

Import App.

(** Two strings of one length that head equal strings are equal. *)
Lemma app_eq_len (a b s t : string) :
  String.length a = String.length b → a +:+ s = b +:+ t → a = b.
Proof.
  revert b; induction a as [|x a IH]; intros [|y b] L E; try discriminate.
  - reflexivity.
  - rewrite !str_app_cons in E. injection E as -> E. injection L as L.
    f_equal. by apply IH.
Qed.

Lemma input_blob_name_eq j f : input_blob_name j f = "uploads/" +:+ j +:+ "_" +:+ f.
Proof. reflexivity. Qed.

Lemma output_blob_name_eq j base t :
  output_blob_name j base t = "converted/" +:+ j +:+ "_" +:+ base +:+ "." +:+ t.
Proof. reflexivity. Qed.

Lemma local_input_path_eq j f :
  local_input_path j f
  = "/tmp/videoconverter_processing/" +:+ "input_" +:+ j +:+ "_" +:+ f.
Proof. reflexivity. Qed.

Lemma local_output_path_eq j base t :
  local_output_path j base t
  = "/tmp/videoconverter_processing/" +:+ "output_" +:+ j +:+ "_" +:+ base +:+ "." +:+ t.
Proof. reflexivity. Qed.

Lemma local_paths_differ j f j' base t :
  local_input_path j f ≠ local_output_path j' base t.
Proof.
  rewrite local_input_path_eq, local_output_path_eq. intros E.
  apply (inj (String.app _)) in E. rewrite !str_app_cons in E. discriminate E.
Qed.

(** C5, as stated, fails: for job identifiers that are arbitrary strings
    the underscore no longer separates identifier and file name, and the
    four names of two requests coincide. *)
Lemma derived_names_collide :
  "x" ≠ "x_y"
  ∧ derived_names "x" "y_z.mp4" "mov" = derived_names "x_y" "z.mp4" "mov".
Proof. split; [discriminate|reflexivity]. Qed.

(** C5, amended.  For distinct job identifiers of one length (the
    identifiers the handler mints are UUID strings of 36 characters), and
    for any file names and target formats, every name derived for the one
    differs from every name derived for the other. *)
Theorem derived_names_distinct (a b fa fb ta tb : string) :
  String.length a = String.length b → a ≠ b →
  ∀ x y, In x (derived_names a fa ta) → In y (derived_names b fb tb) → x ≠ y.
Proof.
  intros L Hne x y Hx Hy. unfold derived_names in Hx, Hy. cbn [In] in Hx, Hy.
  destruct Hx as [<-|[<-|[<-|[<-|[]]]]], Hy as [<-|[<-|[<-|[<-|[]]]]];
    try apply local_paths_differ;
    try (apply not_eq_sym; apply local_paths_differ);
    rewrite ?input_blob_name_eq, ?output_blob_name_eq,
            ?local_input_path_eq, ?local_output_path_eq;
    intros E;
    try (rewrite !str_app_cons in E; discriminate E);
    repeat apply (inj (String.app _)) in E;
    try (rewrite !str_app_cons in E; discriminate E);
    apply Hne; by apply (app_eq_len _ _ _ _ L E).
Qed.

Lemma derived_names_distinct_witness :
  input_blob_name "0b9e6a52-7c1d-4f3a-9e2b-5d8c1a4f6e70" "clip.mp4"
  ≠ input_blob_name "7d3f0c1e-2a4b-4c6d-8e9f-0a1b2c3d4e5f" "clip.mp4".
Proof.
  apply (derived_names_distinct
           "0b9e6a52-7c1d-4f3a-9e2b-5d8c1a4f6e70"
           "7d3f0c1e-2a4b-4c6d-8e9f-0a1b2c3d4e5f"
           "clip.mp4" "clip.mp4" "mov" "mov");
    [reflexivity|discriminate|left; reflexivity|left; reflexivity].
Defined.

End DerivedNames.

(** ** The conversion handler *)

Section ConvertFacts.

Import App.

Implicit Types (e : env) (req : request) (w : world).

(** Unfolds a run of the handler into its primitive steps. *)
Ltac run_all :=
  unfold convert_video, upload_output_and_clean_up, upload_from_file,
    download_to_filename, ffmpeg, upload_from_filename, remove_if_exists,
    os_remove, os_path_exists, write_partial, read_file, get_input, get_output,
    put_input, put_output, write_file, unlink, record, bind, ret in *.

(** *** Nothing is deleted from a bucket *)

Lemma retains_refl w : retains w w.
Proof. by split. Qed.

Lemma retains_trans w1 w2 w3 : retains w1 w2 → retains w2 w3 → retains w1 w3.
Proof. intros [I1 O1] [I2 O2]. split; auto. Qed.

Lemma keeps_ret {A} (a : A) : keeps retains (ret a).
Proof. intros w. apply retains_refl. Qed.

Lemma keeps_bind {A B} (m : M A) (k : A → M B) :
  keeps retains m → (∀ a, keeps retains (k a)) → keeps retains (bind m k).
Proof.
  intros Hm Hk w. unfold bind. specialize (Hm w).
  destruct (m w) as [a w1]. eapply retains_trans; [exact Hm|apply Hk].
Qed.

Lemma keeps_record c : keeps retains (record c).
Proof. by split. Qed.

Lemma keeps_put_input k b : keeps retains (put_input k b).
Proof.
  intros w. split; [|done]. intros k' H. cbn.
  destruct (decide (k = k')) as [->|Hne];
    [rewrite lookup_insert_eq; eauto|by rewrite lookup_insert_ne].
Qed.

Lemma keeps_put_output k b : keeps retains (put_output k b).
Proof.
  intros w. split; [done|]. intros k' H. cbn.
  destruct (decide (k = k')) as [->|Hne];
    [rewrite lookup_insert_eq; eauto|by rewrite lookup_insert_ne].
Qed.

Lemma keeps_write_file path data : keeps retains (write_file path data).
Proof. by split. Qed.

Lemma keeps_write_partial path partial : keeps retains (write_partial path partial).
Proof. destruct partial; [apply keeps_write_file|apply keeps_ret]. Qed.

Lemma keeps_unlink path : keeps retains (unlink path).
Proof. by split. Qed.

Lemma keeps_read_file path : keeps retains (read_file path).
Proof. intros w. apply retains_refl. Qed.

Lemma keeps_get_input k : keeps retains (get_input k).
Proof. intros w. apply retains_refl. Qed.

Lemma keeps_os_path_exists path : keeps retains (os_path_exists path).
Proof. intros w. apply retains_refl. Qed.

(** Follows the structure of a computation down to its primitives. *)
Ltac frame :=
  repeat first
    [ apply keeps_ret | apply keeps_record | apply keeps_put_input
    | apply keeps_put_output | apply keeps_write_file | apply keeps_write_partial
    | apply keeps_unlink | apply keeps_read_file | apply keeps_get_input
    | apply keeps_os_path_exists
    | apply keeps_bind; [|intros ?]
    | match goal with
      | |- keeps _ (match ?x with _ => _ end) => destruct x
      end ].

Lemma keeps_remove_if_exists e path : keeps retains (remove_if_exists e path).
Proof. unfold remove_if_exists, os_remove. frame. Qed.

Lemma keeps_upload_from_file e k f : keeps retains (upload_from_file e k f).
Proof. unfold upload_from_file. frame. Qed.

Lemma keeps_download_to_filename e k path :
  keeps retains (download_to_filename e k path).
Proof. unfold download_to_filename. frame. Qed.

Lemma keeps_ffmpeg e i o : keeps retains (ffmpeg e i o).
Proof. unfold ffmpeg. frame. Qed.

Lemma keeps_upload_from_filename e k path ctype :
  keeps retains (upload_from_filename e k path ctype).
Proof. unfold upload_from_filename. frame. Qed.

Lemma keeps_upload_output_and_clean_up e t o k i p :
  keeps retains (upload_output_and_clean_up e t o k i p).
Proof.
  unfold upload_output_and_clean_up. cbv zeta.
  apply keeps_bind; [apply keeps_upload_from_filename|intros ?].
  apply keeps_bind; [apply keeps_remove_if_exists|intros ?].
  apply keeps_bind; [apply keeps_remove_if_exists|intros ?].
  frame.
Qed.

Lemma keeps_convert_video e req : keeps retains (convert_video e req).
Proof.
  unfold convert_video. cbv zeta.
  destruct (negb (storage_client e)); [apply keeps_ret|].
  destruct (video req) as [video_file|]; [|apply keeps_ret].
  destruct (format req) as [target_format|]; [|apply keeps_ret].
  destruct (_ || _); [apply keeps_ret|].
  apply keeps_bind; [apply keeps_upload_from_file|intros [err|]]; [apply keeps_ret|].
  apply keeps_bind; [apply keeps_download_to_filename|intros [| |]].
  - apply keeps_bind; [apply keeps_ffmpeg|intros [| |]].
    + apply keeps_upload_output_and_clean_up.
    + apply keeps_bind; [apply keeps_remove_if_exists|intros ?; apply keeps_ret].
    + apply keeps_bind; [apply keeps_remove_if_exists|intros ?; apply keeps_ret].
  - apply keeps_ret.
  - apply keeps_bind; [apply keeps_remove_if_exists|intros ?; apply keeps_ret].
Qed.

(** *** Following one run *)

(** The validation accepts exactly the requests that are [accepted]. *)
Lemma convert_video_rejected e req w :
  (∀ f t, ¬ accepted e req f t) →
  ∃ code description, convert_video e req w = (Abort code description, w).
Proof.
  intros H. unfold convert_video, accepted in *.
  destruct (storage_client e); cbn; [|eauto].
  destruct (video req) as [f|]; [|eauto].
  destruct (format req) as [t|]; [|eauto].
  destruct (String.eqb_spec (filename f) ""), (String.eqb_spec t "");
    cbn; eauto.
  by destruct (H f t).
Qed.

(** A run that answers with the redirect went through every step. *)
Lemma convert_video_success e req w id :
  fst (convert_video e req w) = Redirect "download_options" id →
  ∃ f t out, accepted e req f t
    ∧ input_upload e = None ∧ input_download e = DownloadOk
    ∧ ffmpeg_run e = FfmpegOk out ∧ output_upload e = None
    ∧ id = gcs_output_filename (uuid4 e) (fst (Py.splitext (filename f))) t.
Proof.
  unfold accepted. run_all.
  destruct (storage_client e); cbn; [|done].
  destruct (video req) as [f|]; [|done].
  destruct (format req) as [t|]; [|done].
  destruct (String.eqb_spec (filename f) ""), (String.eqb_spec t "");
    cbn; try done.
  destruct (input_upload e); cbn; [done|].
  destruct (input_download e) as [|[]|? []]; cbn;
    repeat (case_match; simplify_eq/=; try done).
  all: intros [= <-]; by eexists f, t, _.
Qed.

End ConvertFacts.

Section ConvertClaims.

Import App.

Implicit Types (e : env) (req : request) (w : world).

(** Unfolds a run of the handler down to the clean-up calls. *)
Ltac run :=
  unfold convert_video, upload_output_and_clean_up, upload_from_file,
    download_to_filename, ffmpeg, upload_from_filename,
    write_partial, read_file, get_input, get_output,
    put_input, put_output, write_file, record, bind, ret in *.

(** Runs the validation of an accepted request. *)
Ltac validate H :=
  let Hclient := fresh in let Hvideo := fresh in let Hformat := fresh in
  let Hname := fresh in let Htarget := fresh in
  destruct H as (Hclient & Hvideo & Hformat & Hname & Htarget);
  rewrite Hclient, Hvideo, Hformat; cbn [negb];
  apply String.eqb_neq in Hname; apply String.eqb_neq in Htarget;
  rewrite Hname, Htarget; cbn [orb].

(** *** The clean-up idiom *)

Lemma remove_if_exists_buckets e path w :
  input_bucket (snd (remove_if_exists e path w)) = input_bucket w
  ∧ output_bucket (snd (remove_if_exists e path w)) = output_bucket w.
Proof.
  unfold remove_if_exists, os_remove, os_path_exists, unlink, record, bind, ret.
  by repeat case_match.
Qed.

Lemma remove_if_exists_calls e path w :
  ∃ l, calls (snd (remove_if_exists e path w)) = calls w ++ l.
Proof.
  unfold remove_if_exists, os_remove, os_path_exists, unlink, record, bind, ret.
  repeat case_match; cbn; eauto. exists []. by rewrite app_nil_r.
Qed.

(** The file is gone afterwards unless [os.remove] refuses. *)
Lemma remove_if_exists_files e path w :
  local_files (snd (remove_if_exists e path w))
  = if os_remove_fails e path then local_files w
    else delete path (local_files w).
Proof.
  unfold remove_if_exists, os_remove, os_path_exists, unlink, record, bind, ret.
  case_bool_decide as Hp; destruct (os_remove_fails e path); cbn; try done.
  symmetry. apply delete_id. by apply eq_None_not_Some.
Qed.

(** C3 fails on the code.  The content type worked out for mov and avi is
    never handed to the upload: after every successful conversion,
    whatever the target format, the output object was written by a call
    without a content type. *)
Theorem output_upload_has_no_content_type e req w id :
  fst (convert_video e req w) = Redirect "download_options" id →
  let w' := snd (convert_video e req w) in
  (∃ data, output_bucket w' !! video_blob_name id
           = Some {| blob_data := data; blob_content_type := None |})
  ∧ ∃ path, In (UploadFromFilename OUTPUT_BUCKET_NAME (video_blob_name id) path None)
               (calls w').
Proof.
  intros (f & t & out & Hacc & Hup & Hdown & Hff & Hout & ->)%convert_video_success.
  run. validate Hacc. rewrite Hup, Hdown. cbn -[remove_if_exists].
  rewrite lookup_insert_eq, Hff. cbn -[remove_if_exists].
  rewrite lookup_insert_eq, Hout. cbn -[remove_if_exists].
  match goal with |- context [remove_if_exists e ?p ?W] =>
    pose proof (remove_if_exists_buckets e p W) as [_ B1];
    pose proof (remove_if_exists_calls e p W) as [l1 C1];
    destruct (remove_if_exists e p W) as [r1 w1] end.
  match goal with |- context [remove_if_exists e ?p ?W] =>
    pose proof (remove_if_exists_buckets e p W) as [_ B2];
    pose proof (remove_if_exists_calls e p W) as [l2 C2];
    destruct (remove_if_exists e p W) as [r2 w2] end.
  cbn in *. rewrite B2, B1, C2, C1. split.
  - exists out. apply lookup_insert_eq.
  - eexists. rewrite !in_app_iff. left; left; right. by left.
Qed.

Lemma output_upload_has_no_content_type_witness :
  let w' := snd (convert_video healthy (clip "mov") empty_world) in
  (∃ data, output_bucket w'
             !! video_blob_name "0b9e6a52-7c1d-4f3a-9e2b-5d8c1a4f6e70_clip.mov"
           = Some {| blob_data := data; blob_content_type := None |})
  ∧ ∃ path, In (UploadFromFilename OUTPUT_BUCKET_NAME
                  (video_blob_name "0b9e6a52-7c1d-4f3a-9e2b-5d8c1a4f6e70_clip.mov")
                  path None)
               (calls w').
Proof.
  apply (output_upload_has_no_content_type healthy (clip "mov") empty_world).
  vm_compute. reflexivity.
Defined.

(** C4 fails on the code.  When the transcoder fails, the handler removes
    the local input file and nothing else: whatever the transcoder left at
    the output path, a partial file included, is still there when the
    error is returned. *)
Theorem transcode_failure_leaves_output e req w f t stderr partial :
  accepted e req f t →
  input_upload e = None → input_download e = DownloadOk →
  ffmpeg_run e = FfmpegError stderr partial →
  let i := local_input_path (uuid4 e) (filename f) in
  let o := local_output_path (uuid4 e) (fst (Py.splitext (filename f))) t in
  let w' := snd (convert_video e req w) in
  fst (convert_video e req w)
  = Abort 500 ("Error during conversion: " +:+ error_message stderr)
  ∧ local_files w' !! o
    = match partial with
      | Some data => Some data
      | None => local_files w !! o
      end
  ∧ (os_remove_fails e i = false → local_files w' !! i = None).
Proof.
  intros Hacc Hup Hdown Hff i o.
  assert (i ≠ o) as Hio by apply local_paths_differ.
  run. validate Hacc. rewrite Hup, Hdown. cbn -[remove_if_exists].
  rewrite lookup_insert_eq, Hff. fold i o.
  destruct partial as [data|]; cbn -[remove_if_exists];
    (match goal with |- context [remove_if_exists e i ?W] =>
       pose proof (remove_if_exists_files e i W) as F;
       destruct (remove_if_exists e i W) as [r1 w1] end);
    cbn in *; rewrite F; (split; [done|]);
    (split; [|intros ->; apply lookup_delete_eq]).
  - destruct (os_remove_fails e i); rewrite ?lookup_delete_ne by done;
      apply lookup_insert_eq.
  - destruct (os_remove_fails e i); rewrite ?lookup_delete_ne by done;
      by rewrite lookup_insert_ne.
Qed.

Lemma transcode_failure_leaves_output_witness :
  let e := with_ffmpeg (FfmpegError (Some "Invalid data found") (Some "partial bytes"))
                       healthy in
  let w' := snd (convert_video e (clip "mov") empty_world) in
  fst (convert_video e (clip "mov") empty_world)
  = Abort 500 "Error during conversion: Invalid data found"
  ∧ local_files w'
      !! "/tmp/videoconverter_processing/output_0b9e6a52-7c1d-4f3a-9e2b-5d8c1a4f6e70_clip.mov"
    = Some "partial bytes"
  ∧ local_files w'
      !! "/tmp/videoconverter_processing/input_0b9e6a52-7c1d-4f3a-9e2b-5d8c1a4f6e70_clip.mp4"
    = None.
Proof.
  intros e w'.
  destruct (transcode_failure_leaves_output e (clip "mov") empty_world
              {| filename := "clip.mp4"; content_type := "video/mp4";
                 stream := "source bytes" |}
              "mov" (Some "Invalid data found") (Some "partial bytes"))
    as (R & O & I); try reflexivity.
  { by repeat split. }
  split; [exact R|]. split; [exact O|]. by apply I.
Defined.

(** C2, as stated, fails: a target format outside every list of container
    identifiers is not rejected; the handler uploads, transcodes and
    stores as for any other format. *)
Lemma convert_accepts_unknown_format :
  ¬ In "xyz" ["mp4"; "mov"; "avi"; "mkv"; "webm"]
  ∧ fst (convert_video healthy (clip "xyz") empty_world)
    = Redirect "download_options" "0b9e6a52-7c1d-4f3a-9e2b-5d8c1a4f6e70_clip.xyz"
  ∧ calls (snd (convert_video healthy (clip "xyz") empty_world))
    = [ UploadFromFile "video-image-input-bucket"
          "uploads/0b9e6a52-7c1d-4f3a-9e2b-5d8c1a4f6e70_clip.mp4" (Some "video/mp4");
        DownloadToFilename "video-image-input-bucket"
          "uploads/0b9e6a52-7c1d-4f3a-9e2b-5d8c1a4f6e70_clip.mp4"
          "/tmp/videoconverter_processing/input_0b9e6a52-7c1d-4f3a-9e2b-5d8c1a4f6e70_clip.mp4";
        FfmpegRun
          "/tmp/videoconverter_processing/input_0b9e6a52-7c1d-4f3a-9e2b-5d8c1a4f6e70_clip.mp4"
          "/tmp/videoconverter_processing/output_0b9e6a52-7c1d-4f3a-9e2b-5d8c1a4f6e70_clip.xyz";
        UploadFromFilename "video-image-output-bucket"
          "converted/0b9e6a52-7c1d-4f3a-9e2b-5d8c1a4f6e70_clip.xyz"
          "/tmp/videoconverter_processing/output_0b9e6a52-7c1d-4f3a-9e2b-5d8c1a4f6e70_clip.xyz"
          None;
        OsRemove
          "/tmp/videoconverter_processing/input_0b9e6a52-7c1d-4f3a-9e2b-5d8c1a4f6e70_clip.mp4";
        OsRemove
          "/tmp/videoconverter_processing/output_0b9e6a52-7c1d-4f3a-9e2b-5d8c1a4f6e70_clip.xyz" ].
Proof.
  split; [cbn; intuition discriminate|]. split; vm_compute; reflexivity.
Qed.

(** C2, amended.  A request whose target format is missing or empty is
    rejected before any store or transcoder call: the handler answers 400
    (500 when the storage client is unavailable) and the world, its record
    of calls included, is as it was. *)
Theorem convert_rejects_missing_format e req w :
  format req = None ∨ format req = Some "" →
  ∃ description,
    convert_video e req w
    = (Abort (if storage_client e then 400 else 500) description, w).
Proof.
  intros H. unfold convert_video, ret.
  destruct (storage_client e); cbn [negb]; [|eauto].
  destruct (video req) as [f|]; [|eauto].
  destruct H as [-> | ->]; [eauto|].
  rewrite orb_true_r. eauto.
Qed.

Lemma convert_rejects_missing_format_witness :
  ∃ description,
    convert_video healthy
      {| video := video (clip "mov"); format := Some "" |} empty_world
    = (Abort 400 description, empty_world).
Proof.
  apply (convert_rejects_missing_format healthy
           {| video := video (clip "mov"); format := Some "" |} empty_world).
  by right.
Defined.

(** C9.  The handler deletes no object: every object of the input or the
    output bucket is still there when the request ends, on every path; and
    once the upload of the input succeeded, the object
    uploads/{job_id}_{original_filename} is in the input bucket at the end,
    with the uploaded content. *)
Theorem convert_video_deletes_no_object e req w :
  let w' := snd (convert_video e req w) in
  (∀ k, is_Some (input_bucket w !! k) → is_Some (input_bucket w' !! k))
  ∧ (∀ k, is_Some (output_bucket w !! k) → is_Some (output_bucket w' !! k))
  ∧ ∀ f t, accepted e req f t → input_upload e = None →
      input_bucket w' !! input_blob_name (uuid4 e) (filename f)
      = Some {| blob_data := stream f;
                blob_content_type := Some (content_type f) |}.
Proof.
  intros w'. destruct (keeps_convert_video e req w) as [I O].
  split; [exact I|]. split; [exact O|].
  intros f t Hacc Hup. unfold w'. clear I O w'.
  run. validate Hacc. rewrite Hup. cbn -[remove_if_exists].
  repeat (case_match; simplify_eq/=);
    repeat match goal with
      | H : remove_if_exists ?e ?p ?W = (_, _) |- _ =>
        let B := fresh in
        pose proof (remove_if_exists_buckets e p W) as [B _];
        rewrite H in B; cbn in B; rewrite B; clear H B
      end;
    apply lookup_insert_eq.
Qed.

Lemma convert_video_deletes_no_object_witness :
  input_bucket
    (snd (convert_video
            (with_ffmpeg (FfmpegError None None) healthy) (clip "mov") empty_world))
    !! "uploads/0b9e6a52-7c1d-4f3a-9e2b-5d8c1a4f6e70_clip.mp4"
  = Some {| blob_data := "source bytes"; blob_content_type := Some "video/mp4" |}.
Proof.
  refine (proj2 (proj2 (convert_video_deletes_no_object
            (with_ffmpeg (FfmpegError None None) healthy) (clip "mov") empty_world))
            {| filename := "clip.mp4"; content_type := "video/mp4";
               stream := "source bytes" |} "mov" _ eq_refl).
  by repeat split.
Defined.

End ConvertClaims.

(** * Further properties *)

(** ** Paths below a directory *)

Section SplitextUnder.

Implicit Types (s p d : string) (c : ascii).

(** A scan that starts at index [i] finds what a scan from 0 finds,
    shifted by [i]. *)
Lemma rfind_go_shift c s i last :
  Py.rfind_go c s i last = if Py.occurs c s then i + Py.rfind c s else last.
Proof.
  unfold Py.rfind. revert i last; induction s as [|a s IH]; intros i last.
  - reflexivity.
  - cbn [Py.rfind_go Py.occurs]. rewrite (IH (i + 1)), (IH (0 + 1)).
    destruct (Ascii.eqb a c), (Py.occurs c s); cbn [orb]; lia.
Qed.

Lemma rfind_occurs c s : Py.occurs c s = true → 0 <= Py.rfind c s.
Proof.
  induction s as [|a s IH]; [discriminate|].
  unfold Py.rfind. cbn [Py.rfind_go Py.occurs]. rewrite rfind_go_shift.
  destruct (Py.occurs c s); [intros _; specialize (IH eq_refl); lia|].
  rewrite orb_false_r. intros ->. lia.
Qed.

Lemma rfind_app c s1 s2 :
  Py.rfind c (s1 +:+ s2)
  = if Py.occurs c s2 then Py.len s1 + Py.rfind c s2 else Py.rfind c s1.
Proof.
  unfold Py.rfind at 1. rewrite rfind_go_app, rfind_go_shift.
  destruct (Py.occurs c s2); [lia|reflexivity].
Qed.

Lemma slice_to_add s1 s2 n :
  Py.slice_to (String.length s1 + n) (s1 +:+ s2) = s1 +:+ Py.slice_to n s2.
Proof.
  induction s1 as [|a s1 IH]; [reflexivity|].
  rewrite !str_app_cons. cbn [String.length Nat.add Py.slice_to]. by rewrite IH.
Qed.

Lemma splitext_loop_shift d p k steps :
  Py.splitext_loop (d +:+ p) (String.length d + k) steps = Py.splitext_loop p k steps.
Proof.
  revert k; induction steps as [|steps IH]; intros k; [reflexivity|].
  cbn [Py.splitext_loop]. unfold Py.slice1. rewrite slice_from_add.
  replace (S (String.length d + k)) with (String.length d + S k)%nat by lia.
  by rewrite IH.
Qed.

(** Below a directory, [splitext] works on the rest of the path alone. *)
Lemma splitext_under d0 p :
  let d := d0 +:+ "/" in
  Py.splitext (d +:+ p) = (d +:+ fst (Py.splitext p), snd (Py.splitext p)).
Proof.
  intros d. unfold Py.splitext.
  pose proof (rfind_range "/" p) as Rs. pose proof (rfind_range "." p) as Rd.
  pose proof (rfind_range "." d0) as Rd0.
  assert (Py.len d = Py.len d0 + 1) as Ld.
  { unfold d, Py.len. rewrite str_length_app. cbn. lia. }
  assert (Py.rfind "/" d = Py.len d0) as Sd by (apply (rfind_last "/" d0 ""); reflexivity).
  assert (Py.rfind "." d = Py.rfind "." d0) as Dd
    by (apply rfind_app_absent; reflexivity).
  assert (Py.rfind "/" (d +:+ p) = Py.len d + Py.rfind "/" p) as ->.
  { rewrite rfind_app. destruct (Py.occurs "/" p) eqn:O; [done|].
    rewrite (rfind_absent _ _ O). lia. }
  rewrite (rfind_app "." d p).
  destruct (Py.occurs "." p) eqn:O.
  - pose proof (rfind_occurs _ _ O) as Pd.
    replace (Py.len d + Py.rfind "." p >? Py.len d + Py.rfind "/" p)
      with (Py.rfind "." p >? Py.rfind "/" p)
      by (rewrite !Z.gtb_ltb; apply eq_iff_eq_true; rewrite !Z.ltb_lt; lia).
    replace (Z.to_nat (Py.len d + Py.rfind "/" p + 1))
      with (String.length d + Z.to_nat (Py.rfind "/" p + 1))%nat
      by (unfold Py.len in *; lia).
    replace (Py.len d + Py.rfind "." p - (Py.len d + Py.rfind "/" p + 1))
      with (Py.rfind "." p - (Py.rfind "/" p + 1)) by lia.
    rewrite splitext_loop_shift.
    replace (Z.to_nat (Py.len d + Py.rfind "." p))
      with (String.length d + Z.to_nat (Py.rfind "." p))%nat
      by (unfold Py.len in *; lia).
    rewrite slice_to_add, slice_from_add.
    by destruct (_ && _).
  - rewrite (rfind_absent _ _ O), Dd.
    replace (Py.rfind "." d0 >? Py.len d + Py.rfind "/" p) with false
      by (symmetry; rewrite Z.gtb_ltb; apply Z.ltb_ge; lia).
    replace (-1 >? Py.rfind "/" p) with false
      by (symmetry; rewrite Z.gtb_ltb; apply Z.ltb_ge; lia).
    reflexivity.
Qed.

End SplitextUnder.

(** ** The storage-event handler, further *)

Section TriggerMore.

Import Trigger.

Implicit Types (svc : service) (ev : cloud_event).

Lemma startswith_app (p rest : string) : Py.startswith (p +:+ rest) p = true.
Proof.
  induction p as [|a p IH]; [by destruct rest|].
  rewrite str_app_cons. cbn [Py.startswith]. by rewrite Ascii.eqb_refl, IH.
Qed.

(** The prefix check alone drops the event. *)
Lemma process_under_output_folder svc (b : option string) (rest : string) :
  ∃ msg,
    process_video_transcription svc
      {| bucket := b; name := Some ("transcriptions/" +:+ rest) |}
    = (Returned, [Print msg]).
Proof.
  unfold process_video_transcription. cbn [bucket name].
  destruct b as [b|]; [|eauto].
  destruct (negb (truthy (Some b)) || _); [eauto|].
  unfold OUTPUT_FOLDER. rewrite startswith_app. eauto.
Qed.

(** X1.  An object under transcriptions/ is never transcribed: whatever its
    file name, its bucket and the state of the service, the handler
    returns without submitting a job. *)
Theorem trigger_never_transcribes_output_folder svc (b : option string) (rest : string) :
  let ev := {| bucket := b; name := Some ("transcriptions/" +:+ rest) |} in
  fst (process_video_transcription svc ev) = Returned ∧ jobs svc ev = [].
Proof.
  intros ev. unfold jobs, ev.
  by destruct (process_under_output_folder svc b rest) as [msg ->].
Qed.

(** X2.  An event without a bucket name or without an object name, absent
    or empty, is dropped with the one error message; the service is not
    touched. *)
Theorem trigger_drops_incomplete_event svc ev :
  bucket ev = None ∨ bucket ev = Some "" ∨ name ev = None ∨ name ev = Some "" →
  process_video_transcription svc ev
  = (Returned, [Print "Error: Bucket name or file name missing in event data."]).
Proof.
  intros H. apply process_missing.
  destruct H as [-> | [-> | [-> | ->]]]; auto.
Qed.

Lemma trigger_drops_incomplete_event_witness :
  process_video_transcription no_credentials
    {| bucket := Some "video-image-input-bucket"; name := Some "" |}
  = (Returned, [Print "Error: Bucket name or file name missing in event data."]).
Proof.
  apply trigger_drops_incomplete_event. cbn. auto.
Defined.

(** Every run of the handler, by cases on how far it gets. *)
Lemma process_cases svc ev :
  (∃ msg, process_video_transcription svc ev = (Returned, [Print msg]))
  ∨ ∃ b n, bucket ev = Some b ∧ name ev = Some n ∧ b ≠ "" ∧ n ≠ ""
      ∧ Py.startswith n OUTPUT_FOLDER = false
      ∧ Py.endswith_any (Py.lower n) supported_extensions = true
      ∧ ((∃ err, VideoIntelligenceServiceClient svc = Raise err
            ∧ process_video_transcription svc ev
              = (Raised err, [Print ("Processing file: gs://" +:+ b +:+ "/" +:+ n)]))
         ∨ (VideoIntelligenceServiceClient svc = Ok tt
            ∧ fst (process_video_transcription svc ev) = Returned
            ∧ jobs svc ev
              = [ {| features := ["SPEECH_TRANSCRIPTION"];
                     input_uri := gcs_input_uri b n;
                     output_uri := gcs_output_uri b n;
                     language_code := "en-US";
                     enable_automatic_punctuation := true;
                     enable_speaker_diarization := true |} ])).
Proof.
  unfold jobs, process_video_transcription.
  destruct (bucket ev) as [b|]; [|eauto]. destruct (name ev) as [n|]; [|eauto].
  destruct b as [|b0 b]; [eauto|]. destruct n as [|n0 n]; [eauto|].
  cbn [truthy negb orb].
  destruct (Py.startswith _ _) eqn:Hp; [eauto|].
  destruct (Py.endswith_any _ _) eqn:Hx; [|eauto]. cbn [negb].
  right. eexists _, _. repeat (split; [done|]).
  destruct (VideoIntelligenceServiceClient svc) as [[]|err].
  - right. split; [done|]. by destruct (annotate_video svc _).
  - left. eauto.
Qed.

(** X3.  An invocation submits at most one job, and a job it submits is
    always the same request: speech transcription in en-US with automatic
    punctuation and speaker diarization, reading the object of the event
    and writing transcriptions/{name without extension}.json in the bucket
    of the event. *)
Theorem trigger_job_shape svc ev r :
  In r (jobs svc ev) →
  ∃ b n, bucket ev = Some b ∧ name ev = Some n
    ∧ jobs svc ev = [r]
    ∧ features r = ["SPEECH_TRANSCRIPTION"]
    ∧ input_uri r = "gs://" +:+ b +:+ "/" +:+ n
    ∧ output_uri r
      = "gs://" +:+ b +:+ "/transcriptions/" +:+ fst (Py.splitext n) +:+ ".json"
    ∧ language_code r = "en-US"
    ∧ enable_automatic_punctuation r = true
    ∧ enable_speaker_diarization r = true.
Proof.
  intros Hr.
  destruct (process_cases svc ev)
    as [[msg E] | (b & n & Hb & Hn & _ & _ & _ & _ & [(err & _ & E) | (_ & _ & E)])].
  - unfold jobs in Hr. rewrite E in Hr. destruct Hr.
  - unfold jobs in Hr. rewrite E in Hr. destruct Hr.
  - rewrite E in Hr. destruct Hr as [<- | []].
    exists b, n. by rewrite E.
Qed.

Lemma trigger_job_shape_witness :
  ∃ b n, Some "video-image-output-bucket" = Some b
    ∧ Some "converted/j_clip.MOV" = Some n
    ∧ jobs healthy {| bucket := Some "video-image-output-bucket";
                      name := Some "converted/j_clip.MOV" |}
      = [ {| features := ["SPEECH_TRANSCRIPTION"];
             input_uri := "gs://video-image-output-bucket/converted/j_clip.MOV";
             output_uri :=
               "gs://video-image-output-bucket/transcriptions/converted/j_clip.json";
             language_code := "en-US";
             enable_automatic_punctuation := true;
             enable_speaker_diarization := true |} ]
    ∧ ["SPEECH_TRANSCRIPTION"] = ["SPEECH_TRANSCRIPTION"]
    ∧ "gs://video-image-output-bucket/converted/j_clip.MOV"
      = "gs://" +:+ b +:+ "/" +:+ n
    ∧ "gs://video-image-output-bucket/transcriptions/converted/j_clip.json"
      = "gs://" +:+ b +:+ "/transcriptions/" +:+ fst (Py.splitext n) +:+ ".json"
    ∧ "en-US" = "en-US" ∧ true = true ∧ true = true.
Proof.
  apply (trigger_job_shape healthy
           {| bucket := Some "video-image-output-bucket";
              name := Some "converted/j_clip.MOV" |}
           {| features := ["SPEECH_TRANSCRIPTION"];
              input_uri := "gs://video-image-output-bucket/converted/j_clip.MOV";
              output_uri :=
                "gs://video-image-output-bucket/transcriptions/converted/j_clip.json";
              language_code := "en-US";
              enable_automatic_punctuation := true;
              enable_speaker_diarization := true |}).
  by left.
Defined.

(** X4.  The only exception that leaves the handler is the one raised by
    the construction of the client; when it does, the event had passed
    every check and no job was submitted. *)
Theorem trigger_raises_only_for_client svc ev err :
  fst (process_video_transcription svc ev) = Raised err →
  VideoIntelligenceServiceClient svc = Raise err
  ∧ jobs svc ev = []
  ∧ ∃ n, name ev = Some n
      ∧ Py.startswith n OUTPUT_FOLDER = false
      ∧ Py.endswith_any (Py.lower n) supported_extensions = true.
Proof.
  intros H.
  destruct (process_cases svc ev)
    as [[msg E] | (b & n & Hb & Hn & _ & _ & Hp & Hx
                   & [(err' & Hc & E) | (_ & R & _)])].
  - by rewrite E in H.
  - unfold jobs. rewrite E in H |- *. injection H as <-.
    split; [exact Hc|]. split; [reflexivity|]. by exists n.
  - by rewrite R in H.
Qed.

Lemma trigger_raises_only_for_client_witness :
  VideoIntelligenceServiceClient no_credentials = Raise "DefaultCredentialsError"
  ∧ jobs no_credentials {| bucket := Some "b"; name := Some "clip.mp4" |} = []
  ∧ ∃ n, Some "clip.mp4" = Some n
      ∧ Py.startswith n OUTPUT_FOLDER = false
      ∧ Py.endswith_any (Py.lower n) supported_extensions = true.
Proof.
  apply (trigger_raises_only_for_client no_credentials
           {| bucket := Some "b"; name := Some "clip.mp4" |}).
  reflexivity.
Defined.

(** X5.  No feedback loop: the object a submitted job writes lies under
    transcriptions/ in the bucket of the event, so the event of its
    creation is dropped by the handler, whatever the service does. *)
Theorem trigger_output_is_not_transcribed svc svc' ev r :
  In r (jobs svc ev) →
  ∃ b n, bucket ev = Some b
    ∧ output_uri r = "gs://" +:+ b +:+ "/" +:+ n
    ∧ fst (process_video_transcription svc' {| bucket := Some b; name := Some n |})
      = Returned
    ∧ jobs svc' {| bucket := Some b; name := Some n |} = [].
Proof.
  intros Hr.
  destruct (process_cases svc ev)
    as [[msg E] | (b & n & Hb & Hn & _ & _ & _ & _ & [(err & _ & E) | (_ & _ & E)])].
  - unfold jobs in Hr. rewrite E in Hr. destruct Hr.
  - unfold jobs in Hr. rewrite E in Hr. destruct Hr.
  - rewrite E in Hr. destruct Hr as [<- | []].
    exists b, (output_object_name n). split; [done|]. split; [reflexivity|].
    unfold jobs, output_object_name, OUTPUT_FOLDER.
    by destruct (process_under_output_folder svc' (Some b)
                   (fst (Py.splitext n) +:+ ".json")) as [msg ->].
Qed.

Lemma trigger_output_is_not_transcribed_witness :
  ∃ b n, Some "video-image-output-bucket" = Some b
    ∧ "gs://video-image-output-bucket/transcriptions/converted/j_clip.json"
      = "gs://" +:+ b +:+ "/" +:+ n
    ∧ fst (process_video_transcription healthy {| bucket := Some b; name := Some n |})
      = Returned
    ∧ jobs healthy {| bucket := Some b; name := Some n |} = [].
Proof.
  apply (trigger_output_is_not_transcribed healthy healthy
           {| bucket := Some "video-image-output-bucket";
              name := Some "converted/j_clip.mov" |}
           {| features := ["SPEECH_TRANSCRIPTION"];
              input_uri := "gs://video-image-output-bucket/converted/j_clip.mov";
              output_uri :=
                "gs://video-image-output-bucket/transcriptions/converted/j_clip.json";
              language_code := "en-US";
              enable_automatic_punctuation := true;
              enable_speaker_diarization := true |}).
  by left.
Defined.

End TriggerMore.

(** ** The naming protocol, further *)

Section NamingMore.

Import Trigger.

Lemma splitext_converted (identifier : string) :
  Py.splitext ("converted/" +:+ identifier)
  = ("converted/" +:+ fst (Py.splitext identifier), snd (Py.splitext identifier)).
Proof. exact (splitext_under "converted" identifier). Qed.

Lemma splitext_uploads (p : string) :
  Py.splitext ("uploads/" +:+ p)
  = ("uploads/" +:+ fst (Py.splitext p), snd (Py.splitext p)).
Proof. exact (splitext_under "uploads" p). Qed.

(** X6.  The path contract holds for every identifier, not only for names
    of the shape {id}_clip.mov: the transcript the trigger asks for when it
    processes converted/{identifier} is the object the availability check
    of {identifier} looks up. *)
Theorem transcript_contract_for_every_identifier (identifier : string) :
  output_object_name (App.video_blob_name identifier)
  = App.transcription_blob_name identifier.
Proof.
  unfold output_object_name, App.video_blob_name, App.transcription_blob_name,
    App.transcription_filename, OUTPUT_FOLDER.
  rewrite splitext_converted. cbn [fst]. by rewrite str_app_assoc.
Qed.

(** X7.  The transcript of an uploaded input is written where the
    availability check never looks: its object name lies under
    transcriptions/uploads/, and its bucket is the input bucket. *)
Theorem upload_transcript_is_never_looked_up (job_id original_filename i : string) :
  let object_name := App.input_blob_name job_id original_filename in
  output_object_name object_name ≠ App.transcription_blob_name i
  ∧ gcs_output_uri App.INPUT_BUCKET_NAME object_name
    ≠ "gs://" +:+ App.OUTPUT_BUCKET_NAME +:+ "/" +:+ App.transcription_blob_name i.
Proof.
  intros object_name. split.
  - unfold output_object_name, object_name, App.input_blob_name,
      App.transcription_blob_name, OUTPUT_FOLDER.
    rewrite splitext_uploads. cbn [fst]. intros E.
    change ("transcriptions/converted/" +:+ App.transcription_filename i)
      with ("transcriptions/" +:+ "converted/" +:+ App.transcription_filename i) in E.
    apply (inj (String.app _)) in E. rewrite str_app_assoc, !str_app_cons in E.
    discriminate E.
  - rewrite gcs_output_uri_object. intros E.
    apply (inj (String.app _)) in E.
    unfold App.INPUT_BUCKET_NAME, App.OUTPUT_BUCKET_NAME in E.
    change "video-image-input-bucket" with ("video-image-" +:+ "input-bucket") in E.
    change "video-image-output-bucket" with ("video-image-" +:+ "output-bucket") in E.
    rewrite !str_app_assoc in E. apply (inj (String.app _)) in E.
    rewrite !str_app_cons in E. discriminate E.
Qed.

Lemma video_extension_is_supported (x t : string) :
  In (Py.lower t) Spec.video_extensions →
  Py.endswith_any (Py.lower (x +:+ "." +:+ t)) supported_extensions = true.
Proof.
  intros Hin. apply endswith_any_true. exists ("." +:+ Py.lower t). split.
  - unfold Spec.video_extensions in Hin. cbn [In] in Hin.
    repeat (destruct Hin as [<- | Hin]; [cbn; tauto|]). contradiction.
  - apply endswith_suffix. exists (Py.lower x). by rewrite !lower_app.
Qed.

(** X8.  For every conversion to a format whose name, in lower case, is one
    of mp4, mov, avi, mpg, mpeg, mkv, webm, and whatever the job identifier
    and the file name: the trigger that processes the stored output submits
    exactly one job, and the job writes the transcript at the object the
    availability check of the returned identifier looks up. *)
Theorem converted_output_is_transcribed_where_looked_up
    (job_id base_name target_format : string)
    (submit : annotate_request → raised string) :
  In (Py.lower target_format) Spec.video_extensions →
  let identifier := App.gcs_output_filename job_id base_name target_format in
  let svc := {| VideoIntelligenceServiceClient := Ok tt;
                annotate_video := submit |} in
  let ev := {| bucket := Some App.OUTPUT_BUCKET_NAME;
               name := Some (App.output_blob_name job_id base_name target_format) |} in
  map output_uri (jobs svc ev)
  = ["gs://" +:+ App.OUTPUT_BUCKET_NAME +:+ "/"
     +:+ App.transcription_blob_name identifier].
Proof.
  intros Hin identifier svc ev. unfold ev, svc, App.output_blob_name.
  fold identifier. rewrite process_eligible; try done.
  - cbn [map output_uri]. rewrite gcs_output_uri_object.
    unfold output_object_name, App.transcription_blob_name,
      App.transcription_filename, OUTPUT_FOLDER.
    rewrite splitext_converted. cbn [fst]. by rewrite str_app_assoc.
  - unfold identifier, App.gcs_output_filename.
    replace ("converted/" +:+ job_id +:+ "_" +:+ base_name +:+ "." +:+ target_format)
      with (("converted/" +:+ job_id +:+ "_" +:+ base_name) +:+ "." +:+ target_format)
      by (by rewrite !str_app_assoc).
    by apply video_extension_is_supported.
Qed.

Lemma converted_output_is_transcribed_where_looked_up_witness :
  map output_uri
    (jobs healthy
       {| bucket := Some App.OUTPUT_BUCKET_NAME;
          name := Some (App.output_blob_name "j" "holiday.2024/beach" "WebM") |})
  = ["gs://video-image-output-bucket/transcriptions/converted/j_holiday.2024/beach.json"].
Proof.
  refine (converted_output_is_transcribed_where_looked_up
            "j" "holiday.2024/beach" "WebM" (fun _ => Ok "operations/1") _).
  vm_compute. tauto.
Defined.

(** X9.  The four names of one request are pairwise distinct: the bucket
    prefixes and the role prefixes input_ and output_ keep the two stored
    objects and the two working files apart, whatever the job identifier,
    the file name and the target format. *)
Theorem names_of_one_request_differ (job_id original_filename target_format : string) :
  NoDup (App.derived_names job_id original_filename target_format).
Proof.
  unfold App.derived_names.
  repeat (apply NoDup_cons; split); try apply NoDup_nil_2;
    rewrite ?list_elem_of_In; cbn [In];
    rewrite ?input_blob_name_eq, ?output_blob_name_eq, ?local_input_path_eq,
            ?local_output_path_eq;
    intros H; repeat (destruct H as [H | H]); try done;
    try (rewrite !str_app_cons in H; discriminate H);
    apply (inj (String.app _)) in H; rewrite !str_app_cons in H; discriminate H.
Qed.

End NamingMore.

(** ** The conversion handler, further *)

Section ConvertMore.

Import App.

Implicit Types (e : env) (req : request) (w : world).

(** Unfolds a run of the handler down to the clean-up calls. *)
Ltac run :=
  unfold convert_video, upload_output_and_clean_up, upload_from_file,
    download_to_filename, ffmpeg, upload_from_filename,
    write_partial, read_file, get_input, get_output,
    put_input, put_output, write_file, record, bind, ret in *.

(** Runs the validation of an accepted request. *)
Ltac validate H :=
  let Hclient := fresh in let Hvideo := fresh in let Hformat := fresh in
  let Hname := fresh in let Htarget := fresh in
  destruct H as (Hclient & Hvideo & Hformat & Hname & Htarget);
  rewrite Hclient, Hvideo, Hformat; cbn [negb];
  apply String.eqb_neq in Hname; apply String.eqb_neq in Htarget;
  rewrite Hname, Htarget; cbn [orb].

(** Replaces each clean-up call that was run by what it did. *)
Ltac after_cleanup :=
  repeat match goal with
    | H : remove_if_exists ?e ?p ?W = (_, ?w0) |- _ =>
      let B := fresh "B" in let F := fresh "F" in let C := fresh "C" in
      pose proof (remove_if_exists_buckets e p W) as B;
      pose proof (remove_if_exists_files e p W) as F;
      pose proof (remove_if_exists_calls e p W) as C;
      rewrite H in B, F, C; cbn in B, F, C;
      destruct B as [? ?]; destruct C as [? C]; clear H
    end.

(** The validation decides the request, by cases. *)
Lemma accepted_dec e req :
  (∃ f t, accepted e req f t) ∨ (∀ f t, ¬ accepted e req f t).
Proof.
  unfold accepted.
  destruct (storage_client e); [|right; intros ? ? (? & _); done].
  destruct (video req) as [f|]; [|right; intros ? ? (_ & ? & _); done].
  destruct (format req) as [t|]; [|right; intros ? ? (_ & _ & ? & _); done].
  destruct (decide (filename f = "")) as [E|E];
    [right; intros ? ? (_ & [= <-] & _ & ? & _); done|].
  destruct (decide (t = "")) as [E'|E'];
    [right; intros ? ? (_ & _ & [= <-] & _ & ?); done|].
  left. by exists f, t.
Qed.

(** X10.  The handler either rejects the request with 400 or 500 and leaves
    the world untouched, or the request passed the validation and the first
    thing done is the upload of the file, with its content type, to
    uploads/{job_id}_{filename} in the input bucket. *)
Theorem convert_video_validates_before_io e req w :
  (∃ code description,
      (code = 400 ∨ code = 500)
      ∧ convert_video e req w = (Abort code description, w))
  ∨ (∃ f t rest,
      accepted e req f t
      ∧ calls (snd (convert_video e req w))
        = calls w ++ UploadFromFile INPUT_BUCKET_NAME
                       (input_blob_name (uuid4 e) (filename f))
                       (Some (content_type f)) :: rest).
Proof.
  destruct (accepted_dec e req) as [(f & t & Hacc) | Hrej].
  - right. exists f, t.
    enough (∃ rest, calls (snd (convert_video e req w))
                    = calls w ++ UploadFromFile INPUT_BUCKET_NAME
                          (input_blob_name (uuid4 e) (filename f))
                          (Some (content_type f)) :: rest)
      as [rest E] by (by exists rest).
    run. validate Hacc.
    repeat (case_match; simplify_eq/=); after_cleanup;
      repeat match goal with H : calls _ = _ |- _ => rewrite H; clear H end;
      rewrite <- ?app_assoc; cbn [app]; eauto.
  - left. unfold convert_video, ret, accepted in *.
    destruct (storage_client e); cbn [negb];
      [|eexists 500, _; split; [by right|done]].
    destruct (video req) as [f|]; [|eexists 400, _; split; [by left|done]].
    destruct (format req) as [t|]; [|eexists 400, _; split; [by left|done]].
    destruct (String.eqb_spec (filename f) ""), (String.eqb_spec t "");
      cbn [orb]; try (eexists 400, _; split; [by left|done]).
    by destruct (Hrej f t).
Qed.

(** Rewrites with what the clean-up calls left. *)
Ltac settle :=
  after_cleanup;
  repeat match goal with
    | H : input_bucket _ = _ |- _ => rewrite H; clear H
    | H : output_bucket _ = _ |- _ => rewrite H; clear H
    | H : local_files _ = _ |- _ => rewrite H; clear H
    | H : calls _ = _ |- _ => rewrite H; clear H
    end;
  cbn [input_bucket output_bucket local_files calls].

(** The run in which every step succeeds. *)
Lemma convert_video_all_ok e req w f t out :
  accepted e req f t →
  input_upload e = None → input_download e = DownloadOk →
  ffmpeg_run e = FfmpegOk out → output_upload e = None →
  let base_name := fst (Py.splitext (filename f)) in
  let w' := snd (convert_video e req w) in
  fst (convert_video e req w)
  = Redirect "download_options" (gcs_output_filename (uuid4 e) base_name t)
  ∧ input_bucket w'
    = <[input_blob_name (uuid4 e) (filename f) :=
          {| blob_data := stream f; blob_content_type := Some (content_type f) |}]>
        (input_bucket w)
  ∧ output_bucket w'
    = <[output_blob_name (uuid4 e) base_name t :=
          {| blob_data := out; blob_content_type := None |}]>
        (output_bucket w).
Proof.
  intros Hacc Hup Hdown Hff Hout base_name.
  run. validate Hacc. rewrite Hup, Hdown. cbn -[remove_if_exists].
  rewrite lookup_insert_eq, Hff. cbn -[remove_if_exists].
  rewrite lookup_insert_eq, Hout. cbn -[remove_if_exists].
  repeat (case_match; simplify_eq/=). settle. done.
Qed.

(** X11.  The handler answers with the redirect exactly when the request
    passed the validation and the four outside steps (upload of the input,
    download for processing, transcoding, upload of the output) all
    succeeded; the identifier it hands over is {job_id}_{base}.{format}. *)
Theorem convert_video_succeeds_iff e req w id :
  fst (convert_video e req w) = Redirect "download_options" id
  ↔ ∃ f t out,
      accepted e req f t
      ∧ input_upload e = None ∧ input_download e = DownloadOk
      ∧ ffmpeg_run e = FfmpegOk out ∧ output_upload e = None
      ∧ id = gcs_output_filename (uuid4 e) (fst (Py.splitext (filename f))) t.
Proof.
  split; [apply convert_video_success|].
  intros (f & t & out & Hacc & Hup & Hdown & Hff & Hout & ->).
  by destruct (convert_video_all_ok e req w f t out) as [R _].
Qed.

Lemma convert_video_succeeds_iff_witness :
  fst (convert_video healthy (clip "avi") empty_world)
  = Redirect "download_options" "0b9e6a52-7c1d-4f3a-9e2b-5d8c1a4f6e70_clip.avi".
Proof.
  apply (proj2 (convert_video_succeeds_iff healthy (clip "avi") empty_world
                  "0b9e6a52-7c1d-4f3a-9e2b-5d8c1a4f6e70_clip.avi")).
  exists {| filename := "clip.mp4"; content_type := "video/mp4";
            stream := "source bytes" |}, "avi", "converted bytes".
  by repeat split.
Defined.

(** X12.  After a successful conversion the output bucket holds, at
    converted/{identifier}, exactly the bytes the transcoder produced, and
    no other object of the output bucket has changed. *)
Theorem successful_conversion_stores_transcoder_output e req w id :
  fst (convert_video e req w) = Redirect "download_options" id →
  let w' := snd (convert_video e req w) in
  ∃ out,
    ffmpeg_run e = FfmpegOk out
    ∧ output_bucket w' !! video_blob_name id
      = Some {| blob_data := out; blob_content_type := None |}
    ∧ ∀ k, k ≠ video_blob_name id → output_bucket w' !! k = output_bucket w !! k.
Proof.
  intros (f & t & out & Hacc & Hup & Hdown & Hff & Hout & ->)%convert_video_success w'.
  destruct (convert_video_all_ok e req w f t out) as (_ & _ & O); try done.
  exists out. split; [done|]. unfold w'. rewrite O. split.
  - apply lookup_insert_eq.
  - intros k Hk. by rewrite lookup_insert_ne.
Qed.

Lemma successful_conversion_stores_transcoder_output_witness :
  ∃ out,
    ffmpeg_run healthy = FfmpegOk out
    ∧ output_bucket (snd (convert_video healthy (clip "webm") empty_world))
        !! video_blob_name "0b9e6a52-7c1d-4f3a-9e2b-5d8c1a4f6e70_clip.webm"
      = Some {| blob_data := out; blob_content_type := None |}
    ∧ ∀ k, k ≠ video_blob_name "0b9e6a52-7c1d-4f3a-9e2b-5d8c1a4f6e70_clip.webm" →
        output_bucket (snd (convert_video healthy (clip "webm") empty_world)) !! k
        = output_bucket empty_world !! k.
Proof.
  apply (successful_conversion_stores_transcoder_output healthy (clip "webm")
           empty_world).
  vm_compute. reflexivity.
Defined.

(** X13.  A request that ends in an error never writes to the output
    bucket: whatever failed, the output bucket is as it was. *)
Theorem failed_conversion_writes_no_output e req w code description :
  fst (convert_video e req w) = Abort code description →
  output_bucket (snd (convert_video e req w)) = output_bucket w.
Proof.
  run. unfold accepted.
  repeat (case_match; simplify_eq/=; try done); intros _; settle; done.
Qed.

Lemma failed_conversion_writes_no_output_witness :
  output_bucket
    (snd (convert_video (More.with_output_upload (Some "503 Service Unavailable") healthy)
            (clip "mov") More.stocked))
  = output_bucket More.stocked.
Proof.
  apply (failed_conversion_writes_no_output
           (More.with_output_upload (Some "503 Service Unavailable") healthy)
           (clip "mov") More.stocked 500
           "Conversion successful, but failed to upload output to storage: 503 Service Unavailable").
  vm_compute. reflexivity.
Defined.



(** X15.  The local copy of the input does not outlive the request: once
    the input was uploaded, and unless the store answered NotFound to the
    download or [os.remove] refused, the input working file does not exist
    when the handler returns, whichever later step failed. *)
Theorem input_copy_is_removed e req w f t :
  accepted e req f t → input_upload e = None →
  (∀ partial, input_download e ≠ DownloadNotFound partial) →
  os_remove_fails e (local_input_path (uuid4 e) (filename f)) = false →
  local_files (snd (convert_video e req w))
    !! local_input_path (uuid4 e) (filename f) = None.
Proof.
  intros Hacc Hup Hnf Hrm.
  pose proof (local_paths_differ (uuid4 e) (filename f) (uuid4 e)
                (fst (Py.splitext (filename f))) t) as Hio.
  run. validate Hacc. rewrite Hup. cbn -[remove_if_exists].
  destruct (input_download e) as [|partial|err partial];
    [|by destruct (Hnf partial)|]; cbn -[remove_if_exists].
  - rewrite lookup_insert_eq. cbn -[remove_if_exists].
    repeat (case_match; simplify_eq/=); settle; rewrite Hrm;
      repeat case_match; by simplify_map_eq.
  - repeat (case_match; simplify_eq/=); settle; rewrite Hrm;
      by simplify_map_eq.
Qed.

Lemma input_copy_is_removed_witness :
  local_files
    (snd (convert_video
            (More.with_input_download (DownloadFails "connection reset" (Some "half"))
               healthy)
            (clip "mov") empty_world))
    !! "/tmp/videoconverter_processing/input_0b9e6a52-7c1d-4f3a-9e2b-5d8c1a4f6e70_clip.mp4"
  = None.
Proof.
  apply (input_copy_is_removed
           (More.with_input_download (DownloadFails "connection reset" (Some "half"))
              healthy)
           (clip "mov") empty_world
           {| filename := "clip.mp4"; content_type := "video/mp4";
              stream := "source bytes" |} "mov");
    try reflexivity; [by repeat split|discriminate].
Defined.

(** X16.  Once the transcoder has succeeded, both working files are gone
    when the handler returns, whether the upload of the output succeeds or
    fails, provided [os.remove] does not refuse. *)
Theorem working_files_are_removed_after_transcoding e req w f t out :
  accepted e req f t →
  input_upload e = None → input_download e = DownloadOk →
  ffmpeg_run e = FfmpegOk out →
  let i := local_input_path (uuid4 e) (filename f) in
  let o := local_output_path (uuid4 e) (fst (Py.splitext (filename f))) t in
  os_remove_fails e i = false → os_remove_fails e o = false →
  local_files (snd (convert_video e req w)) !! i = None
  ∧ local_files (snd (convert_video e req w)) !! o = None.
Proof.
  intros Hacc Hup Hdown Hff i o Hi Ho.
  assert (i ≠ o) as Hio by apply local_paths_differ.
  run. validate Hacc. rewrite Hup, Hdown. cbn -[remove_if_exists].
  rewrite lookup_insert_eq, Hff. cbn -[remove_if_exists].
  rewrite lookup_insert_eq. cbn -[remove_if_exists]. fold i o.
  repeat (case_match; simplify_eq/=); settle; rewrite Hi, Ho;
    by simplify_map_eq.
Qed.

Lemma working_files_are_removed_after_transcoding_witness :
  let w' := snd (convert_video
                   (More.with_output_upload (Some "503 Service Unavailable") healthy)
                   (clip "mov") empty_world) in
  local_files w'
    !! "/tmp/videoconverter_processing/input_0b9e6a52-7c1d-4f3a-9e2b-5d8c1a4f6e70_clip.mp4"
  = None
  ∧ local_files w'
      !! "/tmp/videoconverter_processing/output_0b9e6a52-7c1d-4f3a-9e2b-5d8c1a4f6e70_clip.mov"
    = None.
Proof.
  apply (working_files_are_removed_after_transcoding
           (More.with_output_upload (Some "503 Service Unavailable") healthy)
           (clip "mov") empty_world
           {| filename := "clip.mp4"; content_type := "video/mp4";
              stream := "source bytes" |} "mov" "converted bytes");
    try reflexivity. by repeat split.
Defined.

End ConvertMore.

(** ** The availability check and the download routes *)

Section ServeMore.

Import App Serve.

Implicit Types (e : env) (t : transfer) (b : bucket) (w : world).

(** Unfolds a request to a download route down to the clean-up calls. *)
Ltac serve :=
  unfold download_video_file, download_transcription_file,
    download_blob_and_serve, download_blob_and_serve_body, on_exception,
    remove_temp_file, blob_present, download_blob, os_remove, unlink,
    write_partial, read_file, write_file, record, bind, ret in *.

(** Replaces each clean-up call that was run by what it did. *)
Ltac after_cleanup :=
  repeat match goal with
    | H : remove_if_exists ?e ?p ?W = (_, ?w0) |- _ =>
      let B := fresh "B" in let F := fresh "F" in let C := fresh "C" in
      pose proof (remove_if_exists_buckets e p W) as B;
      pose proof (remove_if_exists_files e p W) as F;
      pose proof (remove_if_exists_calls e p W) as C;
      rewrite H in B, F, C; cbn in B, F, C;
      destruct B as [? ?]; destruct C as [? C]; clear H
    end.

Ltac settle :=
  after_cleanup;
  repeat match goal with
    | H : input_bucket _ = _ |- _ => rewrite H; clear H
    | H : output_bucket _ = _ |- _ => rewrite H; clear H
    | H : local_files _ = _ |- _ => rewrite H; clear H
    | H : calls _ = _ |- _ => rewrite H; clear H
    end;
  cbn [input_bucket output_bucket local_files calls].

(** X17.  The availability check reports the store as it is and changes
    nothing: it makes the two existence checks, each flag is true exactly
    when its object is in the output bucket, and a download link is given
    exactly for the objects that are available. *)
Theorem download_options_reports_the_store e (identifier : string) w :
  storage_client e = true → blob_exists_fails e = None →
  ∃ page,
    download_options e identifier w
    = (Render "download_options.html" page,
       {| input_bucket := input_bucket w;
          output_bucket := output_bucket w;
          local_files := local_files w;
          calls := calls w
                   ++ [BlobExists OUTPUT_BUCKET_NAME ("converted/" +:+ identifier);
                       BlobExists OUTPUT_BUCKET_NAME
                         (transcription_blob_name identifier)] |})
    ∧ video_filename page = identifier
    ∧ (video_available page = true
       ↔ is_Some (output_bucket w !! ("converted/" +:+ identifier)))
    ∧ (transcription_available page = true
       ↔ is_Some (output_bucket w !! transcription_blob_name identifier))
    ∧ video_download_url page
      = (if video_available page
         then Some ("download_video_file", identifier) else None)
    ∧ transcription_download_url page
      = (if transcription_available page
         then Some ("download_transcription_file", transcription_filename identifier)
         else None).
Proof.
  intros Hc Hx. unfold download_options, bind, record, get_output, ret.
  rewrite Hc, Hx. cbn. eexists. split.
  { rewrite <- app_assoc. reflexivity. }
  cbn. rewrite !bool_decide_eq_true. done.
Qed.

Lemma download_options_reports_the_store_witness :
  ∃ page,
    fst (download_options healthy "j_clip.mov" More.stocked)
    = Render "download_options.html" page
    ∧ video_available page = true ∧ transcription_available page = true.
Proof.
  destruct (download_options_reports_the_store healthy "j_clip.mov" More.stocked
              eq_refl eq_refl) as (page & E & _ & V & T & _).
  exists page. rewrite E. split; [reflexivity|]. split.
  - apply V. vm_compute. eauto.
  - apply T. vm_compute. eauto.
Defined.

(** X18.  A successful conversion is visible at once: the availability
    check of the identifier in the redirect, run on the world the
    conversion left, reports the video as available and links to its
    download. *)
Theorem converted_video_is_reported_available e req w (id : string) e' :
  fst (convert_video e req w) = Redirect "download_options" id →
  storage_client e' = true → blob_exists_fails e' = None →
  ∃ page,
    fst (download_options e' id (snd (convert_video e req w)))
    = Render "download_options.html" page
    ∧ video_available page = true
    ∧ video_download_url page = Some ("download_video_file", id).
Proof.
  intros (f & t & out & Hacc & Hup & Hdown & Hff & Hout & ->)%convert_video_success
         Hc Hx.
  destruct (convert_video_all_ok e req w f t out) as (_ & _ & O); try done.
  unfold download_options, bind, record, get_output, ret.
  rewrite Hc, Hx. cbn. eexists. split; [reflexivity|]. cbn.
  rewrite O. unfold video_blob_name, output_blob_name.
  rewrite lookup_insert_eq. by rewrite bool_decide_true by eauto.
Qed.

Lemma converted_video_is_reported_available_witness :
  ∃ page,
    fst (download_options healthy "0b9e6a52-7c1d-4f3a-9e2b-5d8c1a4f6e70_clip.mov"
           (snd (convert_video healthy (clip "mov") empty_world)))
    = Render "download_options.html" page
    ∧ video_available page = true
    ∧ video_download_url page
      = Some ("download_video_file", "0b9e6a52-7c1d-4f3a-9e2b-5d8c1a4f6e70_clip.mov").
Proof.
  apply (converted_video_is_reported_available healthy (clip "mov") empty_world
           "0b9e6a52-7c1d-4f3a-9e2b-5d8c1a4f6e70_clip.mov" healthy);
    [vm_compute|..]; reflexivity.
Defined.

(** X19.  A download never changes a bucket: on every path through
    [download_blob_and_serve], both buckets are afterwards what they
    were. *)
Theorem download_changes_no_bucket e t b (blob_name download_filename : string) w :
  More.same_buckets w
    (snd (download_blob_and_serve e t b blob_name download_filename w)).
Proof.
  unfold More.same_buckets. serve.
  repeat (case_match; simplify_eq/=); settle; done.
Qed.

(** X20.  A request for an object that is not in the bucket is answered
    500, not 404: the [abort(404)] raised inside the [try] block is caught
    by [except Exception] and turned into the 500 whose description quotes
    it.  Nothing is downloaded. *)
Theorem missing_object_is_answered_500 e t b (blob_name download_filename : string) w :
  storage_client e = true → exists_error t = None →
  objects b w !! blob_name = None →
  let w' := snd (download_blob_and_serve e t b blob_name download_filename w) in
  fst (download_blob_and_serve e t b blob_name download_filename w)
  = Aborted 500
      "An error occurred while processing the download: 404 Not Found: File not found."
  ∧ ∀ path, ¬ In (DownloadToFilename (bucket_name b) blob_name path)
                 (drop (length (calls w)) (calls w')).
Proof.
  intros Hc Hx Hm. serve. rewrite Hc, Hx.
  destruct b; cbn -[remove_if_exists] in Hm |- *;
    rewrite Hm; rewrite bool_decide_false by (by intros [? ?]);
    cbn -[remove_if_exists];
    unfold remove_if_exists, os_remove, os_path_exists, unlink, record, bind, ret;
    repeat (case_match; simplify_eq/=);
    (split; [done|]); intros path;
    rewrite <- ?app_assoc, drop_app_length; cbn; intuition discriminate.
Qed.

Lemma missing_object_is_answered_500_witness :
  fst (download_video_file healthy smooth "nothing.mov" More.stocked)
  = Aborted 500
      "An error occurred while processing the download: 404 Not Found: File not found.".
Proof.
  apply (missing_object_is_answered_500 healthy smooth OutputBucket
           "converted/nothing.mov" "nothing.mov" More.stocked); reflexivity.
Defined.

(** A stored object, a working store and a working transfer: the bytes are
    sent, and the scratch copy is removed afterwards. *)
Lemma serve_stored_object e t b (blob_name download_filename : string) w stored :
  storage_client e = true → exists_error t = None →
  fetch t = DownloadOk → send_file_error t = None →
  objects b w !! blob_name = Some stored →
  let local := Py.path_join TEMP_DOWNLOAD_DIR download_filename in
  let w' := snd (download_blob_and_serve e t b blob_name download_filename w) in
  fst (download_blob_and_serve e t b blob_name download_filename w)
  = SendFile local download_filename (blob_data stored)
  ∧ (os_remove_fails e local = false → local_files w' !! local = None).
Proof.
  intros Hc Hx Hf Hs Ho local. serve. rewrite Hc, Hx, Hf, Hs.
  destruct b; cbn -[Py.path_join] in Ho |- *; rewrite Ho;
    rewrite bool_decide_true by eauto; cbn -[Py.path_join];
    rewrite Ho; cbn -[Py.path_join];
    rewrite lookup_insert_eq; cbn -[Py.path_join]; fold local.
  all: split; [by destruct (os_remove_fails e local)|];
    intros ->; cbn -[Py.path_join]; apply lookup_delete_eq.
Qed.

(** X21.  An object that is in the bucket is served as it is stored: when
    the store and the transfer work, the answer is the attachment named
    after the requested file, holding the bytes of the object, and the
    scratch copy is gone once the request is over. *)
Theorem stored_object_is_served e t b (blob_name download_filename : string) w stored :
  storage_client e = true → exists_error t = None →
  fetch t = DownloadOk → send_file_error t = None →
  objects b w !! blob_name = Some stored →
  let local := Py.path_join TEMP_DOWNLOAD_DIR download_filename in
  let w' := snd (download_blob_and_serve e t b blob_name download_filename w) in
  fst (download_blob_and_serve e t b blob_name download_filename w)
  = SendFile local download_filename (blob_data stored)
  ∧ (os_remove_fails e local = false → local_files w' !! local = None).
Proof. apply serve_stored_object. Qed.

Lemma stored_object_is_served_witness :
  fst (download_transcription_file healthy smooth "j_clip.json" More.stocked)
  = SendFile "/tmp/videoconverter_downloads/j_clip.json" "j_clip.json" "{}"
  ∧ local_files
      (snd (download_transcription_file healthy smooth "j_clip.json" More.stocked))
      !! "/tmp/videoconverter_downloads/j_clip.json" = None.
Proof.
  destruct (stored_object_is_served healthy smooth OutputBucket
              "transcriptions/converted/j_clip.json" "j_clip.json" More.stocked
              {| blob_data := "{}"; blob_content_type := None |})
    as [S R]; try reflexivity.
  split; [exact S|]. by apply R.
Defined.

(** X22.  The scratch copy of a download does not outlive the request:
    with a storage client, and unless the answer is 404 or [os.remove]
    refuses, the local path of the download holds no file when the request
    is over, whether the file was sent or the transfer failed. *)
Theorem scratch_copy_is_removed e t b (blob_name download_filename : string) w :
  storage_client e = true →
  let local := Py.path_join TEMP_DOWNLOAD_DIR download_filename in
  os_remove_fails e local = false →
  (∀ description,
     fst (download_blob_and_serve e t b blob_name download_filename w)
     ≠ Aborted 404 description) →
  local_files (snd (download_blob_and_serve e t b blob_name download_filename w))
    !! local = None.
Proof.
  intros Hc local Hr. serve. rewrite Hc. cbn -[remove_if_exists]. fold local.
  repeat (case_match; simplify_eq/=); intros N; settle;
    rewrite ?Hr; cbn; try (by simplify_map_eq);
    try (exfalso; by apply (N "File not found.")).
Qed.

Lemma scratch_copy_is_removed_witness :
  local_files
    (snd (download_video_file healthy
            {| exists_error := None; fetch := DownloadOk;
               send_file_error := Some "Broken pipe" |}
            "j_clip.mov" More.stocked))
    !! "/tmp/videoconverter_downloads/j_clip.mov" = None.
Proof.
  apply (scratch_copy_is_removed healthy
           {| exists_error := None; fetch := DownloadOk;
              send_file_error := Some "Broken pipe" |}
           OutputBucket "converted/j_clip.mov" "j_clip.mov" More.stocked);
    [reflexivity..|].
  intros description. vm_compute. discriminate.
Defined.

(** X23.  The answer 404 has one cause: the object passed the existence
    check and the store then raised NotFound during the download.  An
    object missing at the existence check is never answered 404. *)
Theorem answer_404_means_store_not_found
    e t b (blob_name download_filename : string) w (description : string) :
  fst (download_blob_and_serve e t b blob_name download_filename w)
  = Aborted 404 description →
  description = "File not found."
  ∧ storage_client e = true ∧ exists_error t = None
  ∧ is_Some (objects b w !! blob_name)
  ∧ ∃ partial, fetch t = DownloadNotFound partial.
Proof.
  serve. destruct (storage_client e); cbn -[remove_if_exists]; [|done].
  destruct (exists_error t); cbn -[remove_if_exists].
  { repeat (case_match; simplify_eq/=); done. }
  case_bool_decide as Hp; cbn -[remove_if_exists];
    [|destruct b; cbn -[remove_if_exists] in *;
      repeat (case_match; simplify_eq/=); done].
  assert (is_Some (objects b w !! blob_name)) as Hp' by (by destruct b).
  destruct Hp' as [stored Hs].
  destruct (fetch t) as [|partial|err partial]; cbn -[remove_if_exists].
  - destruct b; cbn -[remove_if_exists] in *; rewrite Hs; cbn -[remove_if_exists];
      repeat (case_match; simplify_eq/=); done.
  - destruct partial; cbn; intros [= <-]; eauto 10.
  - destruct partial; cbn -[remove_if_exists];
      repeat (case_match; simplify_eq/=); done.
Qed.

Lemma answer_404_means_store_not_found_witness :
  "File not found." = "File not found."
  ∧ storage_client healthy = true
  ∧ exists_error {| exists_error := None; fetch := DownloadNotFound None;
                    send_file_error := None |} = None
  ∧ is_Some (objects OutputBucket More.stocked !! "converted/j_clip.mov")
  ∧ ∃ partial, fetch {| exists_error := None; fetch := DownloadNotFound None;
                        send_file_error := None |} = DownloadNotFound partial.
Proof.
  apply (answer_404_means_store_not_found healthy
           {| exists_error := None; fetch := DownloadNotFound None;
              send_file_error := None |}
           OutputBucket "converted/j_clip.mov" "j_clip.mov" More.stocked).
  reflexivity.
Defined.



(** X25.  The links of the availability page lead to the objects that were
    checked: a link that the page gives names a download route, and that
    route, asked for the file name of the link while the object is still
    stored, sends the bytes of the very object whose existence was
    checked. *)
Theorem options_links_lead_to_the_objects e (identifier : string) w page
    (endpoint filename : string) :
  fst (download_options e identifier w) = Render "download_options.html" page →
  video_download_url page = Some (endpoint, filename)
  ∨ transcription_download_url page = Some (endpoint, filename) →
  ∃ handler stored,
    route endpoint = Some handler
    ∧ (output_bucket w !! video_blob_name identifier = Some stored
       ∨ output_bucket w !! transcription_blob_name identifier = Some stored)
    ∧ ∀ e' w', storage_client e' = true → output_bucket w' = output_bucket w →
        fst (handler e' smooth filename w')
        = SendFile (Py.path_join TEMP_DOWNLOAD_DIR filename) filename
            (blob_data stored).
Proof.
  unfold download_options, bind, record, get_output, ret, url_for.
  destruct (storage_client e); cbn; [|done].
  destruct (blob_exists_fails e); cbn; [done|].
  intros [= <-]. cbn.
  intros [H | H]; case_bool_decide as Hp; try done;
    injection H as <- <-; destruct Hp as [stored Hs].
  - exists download_video_file, stored. split; [reflexivity|]. split; [by left|].
    intros e' w' Hc Hw.
    apply (serve_stored_object e' smooth OutputBucket); try done.
    cbn. by rewrite Hw.
  - exists download_transcription_file, stored. split; [reflexivity|].
    split; [by right|]. intros e' w' Hc Hw.
    apply (serve_stored_object e' smooth OutputBucket); try done.
    cbn. by rewrite Hw.
Qed.

Lemma options_links_lead_to_the_objects_witness :
  ∃ handler stored,
    route "download_transcription_file" = Some handler
    ∧ (output_bucket More.stocked !! video_blob_name "j_clip.mov" = Some stored
       ∨ output_bucket More.stocked !! transcription_blob_name "j_clip.mov"
         = Some stored)
    ∧ ∀ e' w', storage_client e' = true →
        output_bucket w' = output_bucket More.stocked →
        fst (handler e' smooth "j_clip.json" w')
        = SendFile (Py.path_join TEMP_DOWNLOAD_DIR "j_clip.json") "j_clip.json"
            (blob_data stored).
Proof.
  eapply (options_links_lead_to_the_objects healthy "j_clip.mov" More.stocked);
    [vm_compute; reflexivity|]. right. vm_compute. reflexivity.
Defined.

(** X26.  Without a storage client nothing is attempted: each of the four
    routes that use the store answers 500 and leaves the world, its record
    of calls included, as it was. *)
Theorem routes_need_the_storage_client e t req (name : string) w :
  storage_client e = false →
  let unavailable := "Server configuration error: Storage client unavailable." in
  convert_video e req w = (Abort 500 unavailable, w)
  ∧ download_options e name w = (Abort 500 unavailable, w)
  ∧ download_video_file e t name w = (Aborted 500 unavailable, w)
  ∧ download_transcription_file e t name w = (Aborted 500 unavailable, w).
Proof.
  intros Hc unavailable.
  unfold convert_video, download_options. serve. rewrite Hc. by cbn.
Qed.

Lemma routes_need_the_storage_client_witness :
  convert_video (More.without_client healthy) (clip "mov") More.stocked
  = (Abort 500 "Server configuration error: Storage client unavailable.", More.stocked)
  ∧ download_options (More.without_client healthy) "j_clip.mov" More.stocked
    = (Abort 500 "Server configuration error: Storage client unavailable.", More.stocked)
  ∧ download_video_file (More.without_client healthy) smooth "j_clip.mov" More.stocked
    = (Aborted 500 "Server configuration error: Storage client unavailable.",
       More.stocked)
  ∧ download_transcription_file (More.without_client healthy) smooth "j_clip.mov"
      More.stocked
    = (Aborted 500 "Server configuration error: Storage client unavailable.",
       More.stocked).
Proof.
  apply (routes_need_the_storage_client (More.without_client healthy) smooth
           (clip "mov") "j_clip.mov" More.stocked).
  reflexivity.
Defined.

(** X27.  What was converted can be downloaded: after a successful
    conversion, the video route asked for the identifier of the redirect
    sends the bytes the transcoder produced, under that identifier as file
    name. *)
Theorem converted_video_can_be_downloaded e req w (id : string) e' :
  fst (convert_video e req w) = Redirect "download_options" id →
  storage_client e' = true →
  ∃ out,
    ffmpeg_run e = FfmpegOk out
    ∧ fst (download_video_file e' smooth id (snd (convert_video e req w)))
      = SendFile (Py.path_join TEMP_DOWNLOAD_DIR id) id out.
Proof.
  intros (f & t & out & Hacc & Hup & Hdown & Hff & Hout & ->)%convert_video_success
         Hc.
  destruct (convert_video_all_ok e req w f t out) as (_ & _ & O); try done.
  exists out. split; [done|].
  apply (serve_stored_object e' smooth OutputBucket _ _ _
           {| blob_data := out; blob_content_type := None |}); try done.
  cbn [objects]. rewrite O. apply lookup_insert_eq.
Qed.

Lemma converted_video_can_be_downloaded_witness :
  ∃ out,
    ffmpeg_run healthy = FfmpegOk out
    ∧ fst (download_video_file healthy smooth
             "0b9e6a52-7c1d-4f3a-9e2b-5d8c1a4f6e70_clip.mov"
             (snd (convert_video healthy (clip "mov") empty_world)))
      = SendFile
          (Py.path_join TEMP_DOWNLOAD_DIR
             "0b9e6a52-7c1d-4f3a-9e2b-5d8c1a4f6e70_clip.mov")
          "0b9e6a52-7c1d-4f3a-9e2b-5d8c1a4f6e70_clip.mov" out.
Proof.
  apply (converted_video_can_be_downloaded healthy (clip "mov") empty_world
           "0b9e6a52-7c1d-4f3a-9e2b-5d8c1a4f6e70_clip.mov" healthy);
    [vm_compute|]; reflexivity.
Defined.

End ServeMore.
